(** * terse: a URL shortener over a key-value table

    Shallow embedding of the request handlers (package [api]), the storage
    contract (package [store]) and the DynamoDB-backed client (package [db]),
    followed by the properties of the handlers and of the key generator.

    Go values are embedded as follows.
    - [string] is a sequence of bytes: Rocq [string].
    - [int], [int64] and [*big.Int] are [Z]; the only narrowing in the code,
      decoding a table number into an [int64], is checked explicitly.
    - [error] is the error's message; a nil error is [None].
    - A slice is [option (list A)]: [None] is the nil slice, [Some []] an
      empty slice that is not nil.  [encoding/json] tells them apart.
    - A function that can panic returns an [outcome].
    - Code that reads and updates the table, the clock, the random source or
      a log is a state transformer [M S A]. *)

From Stdlib Require Import ZArith String Ascii List Bool Lia.
From Stdlib.Strings Require Import Byte.
From stdpp Require Import base option list gmap strings.

Open Scope string_scope.
Open Scope list_scope.
Open Scope Z_scope.

(** ** Go runtime conventions *)

Definition error := string.

Definition slice (A : Type) := option (list A).

(** [append(s, x)]: appending to the nil slice allocates. *)
Definition append {A : Type} (s : slice A) (x : A) : slice A :=
  match s with
  | None => Some [x]
  | Some l => Some (l ++ [x])
  end.

(** The elements a [for _, x := range s] loop visits. *)
Definition range {A : Type} (s : slice A) : list A :=
  match s with
  | None => []
  | Some l => l
  end.

(** [make([]T, 0, n)]: empty, but not nil. *)
Definition make_empty {A : Type} : slice A := Some [].

Inductive outcome (A : Type) : Type :=
| Returns (a : A)
| Panics (msg : string).
Arguments Returns {A} a.
Arguments Panics {A} msg.

(** ** State transformers *)

Definition M (S A : Type) : Type := S -> A * S.

Definition ret {S A : Type} (a : A) : M S A := fun s => (a, s).

Definition bind {S A B : Type} (m : M S A) (k : A -> M S B) : M S B :=
  fun s => let (a, s') := m s in k a s'.

Definition gets {S A : Type} (f : S -> A) : M S A := fun s => (f s, s).

Definition modify {S : Type} (f : S -> S) : M S unit := fun s => (tt, f s).

Declare Scope go_scope.
Delimit Scope go_scope with go.
Notation "x <- c ;; k" := (bind c (fun x => k))
  (at level 100, c at next level, right associativity) : go_scope.
Notation "c ;;; k" := (bind c (fun _ => k))
  (at level 100, right associativity) : go_scope.
Open Scope go_scope.

(** ** package store *)

Module store.

Record UrlObject := {
  Key : string;
  URL : string;
  RedirectCount : Z
}.

(** The zero value [store.UrlObject{}]. *)
Definition zero : UrlObject := {| Key := ""; URL := ""; RedirectCount := 0 |}.

(** [Store] - a generic key-value store interface.  The request context
    argument carries no data the handlers or the client read. *)
Class Store (S : Type) := {
  Get : string -> M S (UrlObject * option error);
  Put : string -> string -> M S (option error);
  Delete : string -> M S (option error);
  List : M S (slice UrlObject * option error)
}.

End store.

(** ** The DynamoDB service, as the client uses it

    One table whose partition key is the string attribute ["id"].  Every SDK
    call first takes the next entry of [outcomes]: [Some e] makes the call
    fail with the error [e] and leave the table as it is (throttling, network
    failure, cancelled context, a request the service rejects); [None], or an
    exhausted script, lets the call through. *)

Module dynamodb.

Inductive AttributeValue :=
| AttributeValueMemberS (Value : string)
| AttributeValueMemberN (Value : Z)
| AttributeValueMemberBOOL (Value : bool)
| AttributeValueMemberNULL.

Abbreviation Item := (gmap string AttributeValue).

Record Service := {
  items : gmap string Item;
  outcomes : list (option error)
}.

Definition next_outcome : M Service (option error) := fun d =>
  match outcomes d with
  | [] => (None, d)
  | o :: rest => (o, {| items := items d; outcomes := rest |})
  end.

Definition set_items (f : gmap string Item -> gmap string Item) : M Service unit :=
  modify (fun d => {| items := f (items d); outcomes := outcomes d |}).

(** [GetItem]: the item stored under the key, or no item (a nil map). *)
Definition GetItem (key : string) : M Service (option Item * option error) :=
  o <- next_outcome ;;
  match o with
  | Some e => ret (None, Some e)
  | None => it <- gets (fun d => items d !! key) ;; ret (it, None)
  end.

(** [PutItem]: creates the item or replaces the whole item stored under
    the same key.  An item without a string ["id"] is rejected. *)
Definition PutItem (item : Item) : M Service (option error) :=
  o <- next_outcome ;;
  match o with
  | Some e => ret (Some e)
  | None =>
      match item !! "id" with
      | Some (AttributeValueMemberS key) =>
          set_items (fun m => <[key := item]> m) ;;; ret None
      | _ => ret (Some "ValidationException: missing the key id in the item")
      end
  end.

(** [DeleteItem]: deleting a key that has no item is not an error. *)
Definition DeleteItem (key : string) : M Service (option error) :=
  o <- next_outcome ;;
  match o with
  | Some e => ret (Some e)
  | None => set_items (fun m => delete key m) ;;; ret None
  end.

(** [Scan]: every item of the table, in the table's own order. *)
Definition Scan : M Service (list Item * option error) :=
  o <- next_outcome ;;
  match o with
  | Some e => ret ([], Some e)
  | None => l <- gets (fun d => (map_to_list (items d)).*2) ;; ret (l, None)
  end.

(** An update expression with one [ADD name value] action on a number. *)
Record Expression := {
  add_name : string;
  add_value : Z
}.

(** [ADD] on one item: a missing attribute starts from 0, a number is
    increased, any other type is rejected. *)
Definition apply_add (expr : Expression) (item : Item) : option Item :=
  match item !! add_name expr with
  | None => Some (<[add_name expr := AttributeValueMemberN (add_value expr)]> item)
  | Some (AttributeValueMemberN n) =>
      Some (<[add_name expr := AttributeValueMemberN (n + add_value expr)]> item)
  | Some _ => None
  end.

(** [UpdateItem]: edits the item under the key, creating it when absent. *)
Definition UpdateItem (key : string) (expr : Expression) : M Service (option error) :=
  o <- next_outcome ;;
  match o with
  | Some e => ret (Some e)
  | None =>
      cur <- gets (fun d => items d !! key) ;;
      let base : Item :=
        match cur with
        | Some item => item
        | None => {[ "id" := AttributeValueMemberS key ]}
        end in
      match apply_add expr base with
      | Some item' => set_items (fun m => <[key := item']> m) ;;; ret None
      | None =>
          ret (Some "ValidationException: incorrect operand type for ADD")
      end
  end.

(** The next SDK call goes through. *)
Definition next_ok (d : Service) : bool :=
  match outcomes d with
  | Some _ :: _ => false
  | _ => true
  end.

(** The service once a call that went through has taken its outcome. *)
Definition after_call (d : Service) : Service :=
  {| items := items d; outcomes := tail (outcomes d) |}.

End dynamodb.

(** ** package db *)

Module db.
Import dynamodb.

(** The client, with what its methods read and write besides the table:
    the wall clock ([time.Now().Unix()]) and standard output. *)
Record Client := {
  DebugMode : bool;
  DDB : Service;
  now : Z;
  stdout : list string
}.

(** [URLItem] represents a shortened URL entry in DynamoDB. *)
Record URLItem := {
  ID : string;          (* dynamodbav:"id" *)
  RedirectURL : string; (* dynamodbav:"redirect_url" *)
  AccessCount : Z;      (* dynamodbav:"access_count", int64 *)
  CreatedAt : Z         (* dynamodbav:"created_at", int64 *)
}.

Definition call {A : Type} (m : M Service A) : M Client A := fun c =>
  let (a, d) := m (DDB c) in
  (a, {| DebugMode := DebugMode c; DDB := d; now := now c; stdout := stdout c |}).

Definition Printf (line : string) : M Client unit :=
  modify (fun c => {| DebugMode := DebugMode c; DDB := DDB c; now := now c;
                      stdout := stdout c ++ [line] |}).

Definition nl : string := String "010"%char EmptyString.

Definition int64_ok (n : Z) : bool := (- 2 ^ 63 <=? n) && (n <? 2 ^ 63).

(** [attributevalue] decoding of one tagged field: an absent attribute and
    NULL leave the zero value, a value of another type is an error. *)
Definition decode_string (av : option AttributeValue) : string + error :=
  match av with
  | None | Some AttributeValueMemberNULL => inl ""
  | Some (AttributeValueMemberS s) => inl s
  | Some (AttributeValueMemberN _) => inr "cannot unmarshal number into Go value type string"
  | Some (AttributeValueMemberBOOL _) => inr "cannot unmarshal bool into Go value type string"
  end.

Definition decode_int64 (av : option AttributeValue) : Z + error :=
  match av with
  | None | Some AttributeValueMemberNULL => inl 0
  | Some (AttributeValueMemberN n) =>
      if int64_ok n then inl n
      else inr "cannot unmarshal number into Go value type int64"
  | Some (AttributeValueMemberS _) => inr "cannot unmarshal string into Go value type int64"
  | Some (AttributeValueMemberBOOL _) => inr "cannot unmarshal bool into Go value type int64"
  end.

Definition URLItem_zero : URLItem :=
  {| ID := ""; RedirectURL := ""; AccessCount := 0; CreatedAt := 0 |}.

(** [attributevalue.UnmarshalMap(m, &item)], for [item] a fresh [URLItem]. *)
Definition UnmarshalMap (m : Item) : URLItem * option error :=
  match decode_string (m !! "id"), decode_string (m !! "redirect_url"),
        decode_int64 (m !! "access_count"), decode_int64 (m !! "created_at") with
  | inl id, inl url, inl cnt, inl at_ =>
      ({| ID := id; RedirectURL := url; AccessCount := cnt; CreatedAt := at_ |}, None)
  | inr e, _, _, _ | _, inr e, _, _ | _, _, inr e, _ | _, _, _, inr e =>
      (URLItem_zero, Some ("unmarshal failed, " +:+ e))
  end.

(** [attributevalue.MarshalMap(item)]: one attribute per tagged field. *)
Definition MarshalMap (item : URLItem) : Item * option error :=
  (<["id" := AttributeValueMemberS (ID item)]>
     (<["redirect_url" := AttributeValueMemberS (RedirectURL item)]>
        (<["access_count" := AttributeValueMemberN (AccessCount item)]>
           (<["created_at" := AttributeValueMemberN (CreatedAt item)]> ∅))),
   None).

(** [expression.NewBuilder()], [WithUpdate] and [Build]: building fails
    only on a builder that was given nothing. *)
Definition NewBuilder : option Expression := None.

Definition WithUpdate (update : Expression) (b : option Expression) : option Expression :=
  Some update.

Definition Build (b : option Expression) : Expression * option error :=
  match b with
  | Some u => (u, None)
  | None => ({| add_name := ""; add_value := 0 |}, Some "unset parameter: Builder")
  end.

(** [expression.Add(expression.Name(name), expression.Value(v))] *)
Definition Add (name : string) (v : Z) : Expression :=
  {| add_name := name; add_value := v |}.

(** Implements the [Store] interface. *)
Definition Get (key : string) : M Client (store.UrlObject * option error) :=
  (* Get item from DynamoDB *)
  r <- call (GetItem key) ;;
  let '(result, err) := r in
  match err with
  | Some e => ret (store.zero, Some ("failed to get item: " +:+ e))
  | None =>
  (* Check if item exists *)
  match result with
  | None => ret (store.zero, None)
  | Some raw =>
  (* Unmarshal the item *)
  let '(item, err) := UnmarshalMap raw in
  match err with
  | Some e => ret (store.zero, Some ("failed to unmarshal item: " +:+ e))
  | None =>
  (* Increment access count *)
  let update := Add "access_count" 1 in
  let '(expr, err) := Build (WithUpdate update NewBuilder) in
  match err with
  | Some e => ret (store.zero, Some ("failed to build update expression: " +:+ e))
  | None =>
  err <- call (UpdateItem key expr) ;;
  (match err with
   | Some e =>
       (* Log error but don't fail the request *)
       debug <- gets DebugMode ;;
       if debug : bool
       then Printf ("failed to increment access count: " +:+ e +:+ nl)
       else ret tt
   | None => ret tt
   end) ;;;
  (* Convert to UrlObject *)
  ret ({| store.Key := ID item;
          store.URL := RedirectURL item;
          store.RedirectCount := AccessCount item |}, None)
  end end end end.

Definition Put (key value : string) : M Client (option error) :=
  (* Create item to save *)
  t <- gets now ;;
  let item := {| ID := key; RedirectURL := value; AccessCount := 0; CreatedAt := t |} in
  (* Marshal the item into DynamoDB attribute values *)
  let '(av, err) := MarshalMap item in
  match err with
  | Some e => ret (Some ("failed to marshal item: " +:+ e))
  | None =>
  (* Put item into DynamoDB *)
  err <- call (PutItem av) ;;
  match err with
  | Some e => ret (Some ("failed to put item: " +:+ e))
  | None => ret None
  end end.

Definition Delete (key : string) : M Client (option error) :=
  (* Delete item from DynamoDB *)
  err <- call (DeleteItem key) ;;
  match err with
  | Some e => ret (Some ("failed to delete item: " +:+ e))
  | None => ret None
  end.

(** The body of the loop of [List] over the scanned items. *)
Fixpoint List_loop (scanned : list Item) (urlObjects : slice store.UrlObject)
  : M Client (slice store.UrlObject) :=
  match scanned with
  | [] => ret urlObjects
  | item :: rest =>
      let '(urlItem, err) := UnmarshalMap item in
      match err with
      | Some e =>
          (* Skip items that can't be unmarshaled *)
          debug <- gets DebugMode ;;
          (if debug : bool
           then Printf ("failed to unmarshal item: " +:+ e +:+ nl)
           else ret tt) ;;;
          List_loop rest urlObjects
      | None =>
          List_loop rest
            (append urlObjects
               {| store.Key := ID urlItem;
                  store.URL := RedirectURL urlItem;
                  store.RedirectCount := AccessCount urlItem |})
      end
  end.

Definition List : M Client (slice store.UrlObject * option error) :=
  (* Scan all items from DynamoDB *)
  r <- call Scan ;;
  let '(result, err) := r in
  match err with
  | Some e => ret (None, Some ("failed to scan table: " +:+ e))
  | None =>
  (* Convert items to UrlObjects *)
  urlObjects <- List_loop result make_empty ;;
  ret (urlObjects, None)
  end.

(** The client once one SDK call of its has gone through without changing
    the table. *)
Definition served (c : Client) : Client :=
  {| DebugMode := DebugMode c; DDB := after_call (DDB c); now := now c;
     stdout := stdout c |}.

#[global] Instance Client_Store : store.Store Client := {|
  store.Get := Get;
  store.Put := Put;
  store.Delete := Delete;
  store.List := List
|}.

End db.

(** ** Library calls of package api *)

(** [net/url]: the fields of a parsed URL that the request validation reads. *)
Module url.

Record URL := {
  Scheme : string;
  Host : string
}.

End url.

(** [encoding/json] values, as [render.JSON] writes them. *)
Module json.

#[warnings="-register-all"]
Inductive Value :=
| Null
| Number (n : Z)
| String (s : string)
| Array (elems : list Value)
| Object (fields : list (string * Value)).

End json.

(** [crypto/rand] and [math/big]: a uniform number below [max] by rejection
    sampling over the bytes of the random source.  The source is the list of
    bytes it will still deliver; reading past its end is its failure. *)
Module rand.

Definition byte_val (b : byte) : Z := Z.of_N (Byte.to_N b).

(** [io.ReadFull(rand, bytes)] for a buffer of [k] bytes. *)
Definition ReadFull (k : nat) (rd : list byte) : (list Z * option error) * list byte :=
  if (k <=? length rd)%nat
  then ((byte_val <$> take k rd, None), drop k rd)
  else ((byte_val <$> rd, Some (if rd is [] then "EOF" else "unexpected EOF")), []).

(** [n.SetBytes(bytes)]: big-endian. *)
Definition SetBytes (bytes : list Z) : Z :=
  fold_left (fun acc b => acc * 256 + b) bytes 0.

(** [n.BitLen()] for [0 <= n]. *)
Definition BitLen (n : Z) : Z := if n =? 0 then 0 else Z.log2 n + 1.

(** The sampling loop of [rand.Int].  Every turn that does not fail consumes
    [k] bytes, so [fuel] above the length of the source is never used up. *)
Fixpoint Int_loop (fuel : nat) (max : Z) (k : nat) (b : Z) (rd : list byte)
  : (option Z * option error) * list byte :=
  match fuel with
  | O => ((None, Some "EOF"), rd)
  | S fuel' =>
      let '((bytes, err), rd') := ReadFull k rd in
      match err with
      | Some e => ((None, Some e), rd')
      | None =>
          (* Clear bits in the first byte to increase the probability
             that the candidate is < max. *)
          let bytes :=
            match bytes with
            | [] => []
            | b0 :: tl => Z.land b0 (Z.shiftl 1 b - 1) :: tl
            end in
          let n := SetBytes bytes in
          if n <? max then ((Some n, None), rd') else Int_loop fuel' max k b rd'
      end
  end.

Definition Int (max : Z) (rd : list byte)
  : outcome ((option Z * option error) * list byte) :=
  if max <=? 0 then Panics "crypto/rand: argument to Int is <= 0"
  else
    let n := max - 1 in
    (* bitLen is the maximum bit length needed to encode a value < max. *)
    let bitLen := BitLen n in
    if bitLen =? 0 then Returns ((Some 0, None), rd)
    else
      (* k is the maximum byte length needed to encode a value < max. *)
      let k := (bitLen + 7) / 8 in
      (* b is the number of bits in the most significant byte of max-1. *)
      let b := if bitLen mod 8 =? 0 then 8 else bitLen mod 8 in
      Returns (Int_loop (S (length rd)) max (Z.to_nat k) b rd).

End rand.

(** [net/http]: a request as the handlers read it and the response they
    write.  A response is its status line, the [Location] header and the
    body; [Redirect] is taken at its contract, a reply with the given code
    that redirects to the given url. *)
Module http.

Definition StatusOK : Z := 200.
Definition StatusCreated : Z := 201.
Definition StatusFound : Z := 302.
Definition StatusBadRequest : Z := 400.
Definition StatusNotFound : Z := 404.
Definition StatusInternalServerError : Z := 500.

Inductive body :=
| Text (s : string)
| JSON (v : json.Value)
| Link (target : string).

Record Response := {
  StatusCode : Z;
  Location : option string;
  Body : body
}.

(** [http.Error(w, error, code)] *)
Definition Error (msg : string) (code : Z) : Response :=
  {| StatusCode := code; Location := None; Body := Text (msg +:+ db.nl) |}.

(** [http.NotFound(w, r)] *)
Definition NotFound : Response := Error "404 page not found" StatusNotFound.

(** [http.Redirect(w, r, url, code)] *)
Definition Redirect (target : string) (code : Z) : Response :=
  {| StatusCode := code; Location := Some target; Body := Link target |}.

End http.

(** ** package api *)

Module api.

(** keyPattern validates that key is exactly 16 alphanumeric characters:
    the regular expression [^[a-zA-Z0-9]{16}$]. *)
Definition in_class (c : ascii) : bool :=
  let n := nat_of_ascii c in
  ((97 <=? n) && (n <=? 122) || (65 <=? n) && (n <=? 90) || (48 <=? n) && (n <=? 57))%nat.

Definition keyPattern_MatchString (s : string) : bool :=
  (String.length s =? 16)%nat && forallb in_class (list_ascii_of_string s).

(** alphanumeric characters for key generation *)
Definition alphanumeric : string :=
  "abcdefghijklmnopqrstuvwxyzABCDEFGHIJKLMNOPQRSTUVWXYZ0123456789".

Record CreateShortURLRequest := {
  URL : string;     (* json:"url" *)
  ExpiresIn : Z     (* json:"expires_in,omitempty", in seconds *)
}.

Record CreateShortURLResponse := {
  ShortURL : string (* json:"short_url,omitempty" *)
}.

Record RedirectURLItem := {
  Key : string;       (* json:"key" *)
  ItemURL : string;   (* json:"url" *)
  RedirectCount : Z   (* json:"redirect_count" *)
}.

Record RedirectURLListResponse := {
  URLs : slice RedirectURLItem (* json:"urls" *)
}.

Record DeleteRedirectResponse := {
  Message : string (* json:"message" *)
}.

(** What [encoding/json] writes for the response types: a field tagged
    [omitempty] is left out when empty, a nil slice is written as [null]. *)
Definition marshal_CreateShortURLResponse (v : CreateShortURLResponse) : json.Value :=
  json.Object (if String.eqb (ShortURL v) "" then []
               else [("short_url", json.String (ShortURL v))]).

Definition marshal_RedirectURLItem (v : RedirectURLItem) : json.Value :=
  json.Object [("key", json.String (Key v));
               ("url", json.String (ItemURL v));
               ("redirect_count", json.Number (RedirectCount v))].

Definition marshal_RedirectURLListResponse (v : RedirectURLListResponse) : json.Value :=
  json.Object [("urls", match URLs v with
                        | None => json.Null
                        | Some l => json.Array (marshal_RedirectURLItem <$> l)
                        end)].

Definition marshal_DeleteRedirectResponse (v : DeleteRedirectResponse) : json.Value :=
  json.Object [("message", json.String (Message v))].

(** An incoming request: the [Host] header, the path parameters chi bound,
    and what [render.Decode] makes of the body for a
    [CreateShortURLRequest] (the decoded value and the decoder's error). *)
Record Request := {
  Host : string;
  URLParams : list (string * string);
  Decode : CreateShortURLRequest * option error
}.

(** [chi.URLParam(r, key)]: the empty string when the route has no such
    parameter. *)
Fixpoint URLParam_in (params : list (string * string)) (key : string) : string :=
  match params with
  | [] => ""
  | (k, v) :: rest => if String.eqb k key then v else URLParam_in rest key
  end.

Definition URLParam (r : Request) (key : string) : string :=
  URLParam_in (URLParams r) key.

(** [alphanumeric[num.Int64()]], with Go's checks on the pointer and the
    index. *)
Definition index_alphanumeric (num : option Z) : outcome ascii :=
  match num with
  | None => Panics "invalid memory address or nil pointer dereference"
  | Some n =>
      if n <? 0 then Panics "index out of range"
      else match String.get (Z.to_nat n) alphanumeric with
           | Some c => Returns c
           | None => Panics "index out of range"
           end
  end.

(** The loop of [generateKey] over the indices of [key]. *)
Fixpoint generateKey_loop (indices : list nat) (key : list ascii) (rd : list byte)
  : outcome ((string * option error) * list byte) :=
  match indices with
  | [] => Returns ((string_of_list_ascii key, None), rd)
  | i :: rest =>
      match rand.Int (Z.of_nat (String.length alphanumeric)) rd with
      | Panics msg => Panics msg
      | Returns ((num, err), rd') =>
          match err with
          | Some e => Returns (("", Some e), rd')
          | None =>
              match index_alphanumeric num with
              | Panics msg => Panics msg
              | Returns c => generateKey_loop rest (<[i := c]> key) rd'
              end
          end
      end
  end.

(** generateKey creates a random 16 character alphanumeric string *)
Definition generateKey (rd : list byte) : outcome ((string * option error) * list byte) :=
  generateKey_loop (seq 0 16) (replicate 16 zero) rd.

(** The calls a handler makes on its [store.Store], in order. *)
Inductive StoreCall :=
| CallGet (key : string)
| CallPut (key value : string)
| CallDelete (key : string)
| CallList.

(** [UserHandler] with the process state its methods touch: the store and
    the error events sent to the logger, then [crypto/rand.Reader] and the
    record of the store calls made so far. *)
Record UserHandler (S : Type) := {
  h_store : S;
  h_logger : list (string * error);
  Reader : list byte;
  calls : list StoreCall
}.
Arguments h_store {S} _.
Arguments h_logger {S} _.
Arguments Reader {S} _.
Arguments calls {S} _.

Section handlers.

Context {S : Type} {store_S : store.Store S}.

(** [url.ParseRequestURI], the parser of [net/url]. *)
Variable ParseRequestURI : string -> url.URL * option error.

(** [h.store.<method>(...)] *)
Definition on_store {A : Type} (c : StoreCall) (m : M S A) : M (UserHandler S) A := fun h =>
  let (a, s) := m (h_store h) in
  (a, {| h_store := s; h_logger := h_logger h; Reader := Reader h;
         calls := calls h ++ [c] |}).

(** [h.logger.Error().Err(err).Msg(msg)] *)
Definition logger_Error (err : error) (msg : string) : M (UserHandler S) unit :=
  modify (fun h => {| h_store := h_store h; h_logger := h_logger h ++ [(msg, err)];
                      Reader := Reader h; calls := calls h |}).

(** [generateKey()] reading from [rand.Reader]. *)
Definition call_generateKey : M (UserHandler S) (outcome (string * option error)) := fun h =>
  match generateKey (Reader h) with
  | Panics msg => (Panics msg, h)
  | Returns (r, rd) =>
      (Returns r, {| h_store := h_store h; h_logger := h_logger h; Reader := rd;
                     calls := calls h |})
  end.

(** [middleware.Recoverer]: what the client gets when a handler panics. *)
Definition Recoverer : http.Response :=
  {| http.StatusCode := http.StatusInternalServerError;
     http.Location := None; http.Body := http.Text "" |}.

(** Helper methods for consistent error handling and responses *)
Definition handleError (err : error) : M (UserHandler S) http.Response :=
  (* Convert different error types to appropriate HTTP responses *)
  logger_Error err "Handling error" ;;;
  ret (http.Error "Internal Server Error" http.StatusInternalServerError).

Definition respondJSON (status : Z) (data : json.Value) : M (UserHandler S) http.Response :=
  (* Common response formatting *)
  ret {| http.StatusCode := status; http.Location := None; http.Body := http.JSON data |}.

Definition Redirect (r : Request) : M (UserHandler S) http.Response :=
  let key := URLParam r "key" in
  (* Validate key: must be exactly 16 alphanumeric characters *)
  if negb (keyPattern_MatchString key)
  then ret (http.Error "Invalid key format" http.StatusBadRequest)
  else
    (* Call the store to get the value *)
    res <- on_store (CallGet key) (store.Get key) ;;
    let '(value, err) := res in
    match err with
    | Some _ => ret (http.Error "Internal Server Error" http.StatusInternalServerError)
    | None =>
        let url := store.URL value in
        if String.eqb url "" then ret http.NotFound
        else ret (http.Redirect url http.StatusFound)
    end.

Definition Bind (c : CreateShortURLRequest) : option error :=
  (* Validate URL is not empty *)
  if String.eqb (URL c) "" then Some "url is required"
  else
    (* Validate URL format *)
    let '(parsedURL, err) := ParseRequestURI (URL c) in
    match err with
    | Some _ => Some "invalid url format"
    | None =>
        (* Ensure scheme is http or https *)
        if negb (String.eqb (url.Scheme parsedURL) "http")
           && negb (String.eqb (url.Scheme parsedURL) "https")
        then Some "url must use http or https scheme"
        (* Ensure host is present *)
        else if String.eqb (url.Host parsedURL) "" then Some "url must have a valid host"
        else None
    end.

(** [render.Bind(r, data)]: decode the body, then run the value's [Bind]. *)
Definition render_Bind (r : Request) : CreateShortURLRequest * option error :=
  let '(data, err) := Decode r in
  match err with
  | Some e => (data, Some e)
  | None => (data, Bind data)
  end.

Definition CreateRedirect (r : Request) : M (UserHandler S) http.Response :=
  (* Implementation for creating a new redirect *)
  let '(data, err) := render_Bind r in
  match err with
  | Some e => handleError e
  | None =>
      (* Generate a unique key and store the URL *)
      g <- call_generateKey ;;
      match g with
      | Panics _ => ret Recoverer
      | Returns (key, _) =>
          err <- on_store (CallPut key (URL data)) (store.Put key (URL data)) ;;
          match err with
          | Some e => handleError e
          | None =>
              let shortURL := Host r +:+ "/g/" +:+ key in
              let response := {| ShortURL := shortURL |} in
              respondJSON http.StatusCreated (marshal_CreateShortURLResponse response)
          end
      end
  end.

(** The loop of [ListRedirects] over the records of the store. *)
Fixpoint ListRedirects_loop (data : list store.UrlObject) (response : RedirectURLListResponse)
  : RedirectURLListResponse :=
  match data with
  | [] => response
  | item :: rest =>
      (* Process each item as needed *)
      ListRedirects_loop rest
        {| URLs := append (URLs response)
                     {| Key := store.Key item;
                        ItemURL := store.URL item;
                        RedirectCount := store.RedirectCount item |} |}
  end.

Definition ListRedirects (r : Request) : M (UserHandler S) http.Response :=
  (* Implementation for listing all redirects *)
  res <- on_store CallList store.List ;;
  let '(data, err) := res in
  match err with
  | Some e => handleError e
  | None =>
      let response := {| URLs := None |} in
      let response := ListRedirects_loop (range data) response in
      respondJSON http.StatusOK (marshal_RedirectURLListResponse response)
  end.

Definition DeleteRedirect (r : Request) : M (UserHandler S) http.Response :=
  (* Implementation for deleting a redirect *)
  let key := URLParam r "key" in
  err <- on_store (CallDelete key) (store.Delete key) ;;
  match err with
  | Some e => handleError e
  | None =>
      let response := {| Message := "Redirect deleted successfully" |} in
      respondJSON http.StatusOK (marshal_DeleteRedirectResponse response)
  end.

End handlers.


End api.

(** ** package db: connecting to the table

    [SetupDB] over the tables of the account.  The load of the AWS
    configuration and the choice of the endpoint only build the SDK handle;
    on a load error the code builds a fatal log event that it never sends,
    and goes on.  What is left is the probe of the table and its creation. *)

Module setup.
Import dynamodb.

(** The tables of the account with their items, and the outcome script of
    the SDK calls (as for [Service]). *)
Record Account := {
  tables : gmap string (gmap string Item);
  replies : list (option error)
}.

Definition next_reply : M Account (option error) := fun a =>
  match replies a with
  | [] => (None, a)
  | o :: rest => (o, {| tables := tables a; replies := rest |})
  end.

(** [DescribeTable]: an error for a table the account does not have. *)
Definition DescribeTable (name : string) : M Account (option error) :=
  o <- next_reply ;;
  match o with
  | Some e => ret (Some e)
  | None =>
      t <- gets (fun a => tables a !! name) ;;
      match t with
      | Some _ => ret None
      | None => ret (Some "ResourceNotFoundException: Requested resource not found")
      end
  end.

(** [CreateTable]: a new empty table; an error when the name is taken. *)
Definition CreateTable (name : string) : M Account (option error) :=
  o <- next_reply ;;
  match o with
  | Some e => ret (Some e)
  | None =>
      t <- gets (fun a => tables a !! name) ;;
      match t with
      | Some _ => ret (Some "ResourceInUseException: Table already exists")
      | None =>
          modify (fun a => {| tables := <[name := ∅]> (tables a);
                              replies := replies a |}) ;;;
          ret None
      end
  end.

(** The fields of [Client] that [SetupDB] reads, the account behind its
    [DDB] handle, the lines of the standard logger and the info events of
    the client's logger. *)
Record Client := {
  DebugMode : bool;
  Table : string;
  DDBEndpoint : string;
  DDB : Account;
  log : list string;
  Logger : list (string * string)
}.

Definition call {A : Type} (m : M Account A) : M Client A := fun c =>
  let (a, d) := m (DDB c) in
  (a, {| DebugMode := DebugMode c; Table := Table c; DDBEndpoint := DDBEndpoint c;
         DDB := d; log := log c; Logger := Logger c |}).

(** [log.Printf(line)] *)
Definition Printf (line : string) : M Client unit :=
  modify (fun c => {| DebugMode := DebugMode c; Table := Table c;
                      DDBEndpoint := DDBEndpoint c; DDB := DDB c;
                      log := log c ++ [line]; Logger := Logger c |}).

(** [c.Logger.Info().Str("endpoint", v).Msg(msg)] *)
Definition Logger_Info (v msg : string) : M Client unit :=
  modify (fun c => {| DebugMode := DebugMode c; Table := Table c;
                      DDBEndpoint := DDBEndpoint c; DDB := DDB c;
                      log := log c; Logger := Logger c ++ [(msg, v)] |}).

Definition when_debug (line : string) : M Client unit :=
  debug <- gets DebugMode ;;
  if debug : bool then Printf line else ret tt.

Definition SetupDB : M Client (option error) :=
  endpoint <- gets DDBEndpoint ;;
  (if negb (String.eqb endpoint "")
   then
     (* Create DynamoDB client with custom endpoint *)
     Logger_Info endpoint "Using custom DynamoDB endpoint"
   else
     (* Create DynamoDB client *)
     ret tt) ;;;
  (* Test connection by describing the table *)
  table <- gets Table ;;
  err <- call (DescribeTable table) ;;
  match err with
  | Some _ =>
      (* Table doesn't exist, create it *)
      when_debug ("Table " +:+ table +:+ " doesn't exist, creating...") ;;;
      err <- call (CreateTable table) ;;
      match err with
      | Some e => ret (Some ("failed to create table: " +:+ e))
      | None =>
          when_debug ("Table " +:+ table +:+ " created successfully") ;;;
          ret None
      end
  | None =>
      when_debug ("Connected to DynamoDB table: " +:+ table) ;;;
      ret None
  end.

End setup.

(** ** Vocabulary of the properties *)

(** The record [Get] and [List] make of a table item, when it decodes. *)
Definition decoded (raw : dynamodb.Item) : option store.UrlObject :=
  let '(item, err) := db.UnmarshalMap raw in
  match err with
  | Some _ => None
  | None =>
      Some {| store.Key := db.ID item; store.URL := db.RedirectURL item;
              store.RedirectCount := db.AccessCount item |}
  end.

(** The line [List] prints in debug mode for an item that does not decode. *)
Definition unmarshal_line (raw : dynamodb.Item) : list string :=
  match snd (db.UnmarshalMap raw) with
  | Some e => ["failed to unmarshal item: " +:+ e +:+ db.nl]
  | None => []
  end.

(** The items a scan of the table returns. *)
Definition scanned (d : dynamodb.Service) : list dynamodb.Item :=
  (map_to_list (dynamodb.items d)).*2.

(** Every SDK call of the client from now on goes through. *)
Definition all_ok (c : db.Client) : Prop := dynamodb.outcomes (db.DDB c) = [].

(** The number stored as [access_count], 0 when there is none. *)
Definition stored_count (raw : dynamodb.Item) : Z :=
  match raw !! "access_count" with
  | Some (dynamodb.AttributeValueMemberN n) => n
  | _ => 0
  end.

(** What [rand.Int] keeps of a byte for the 62-character alphabet, whether
    it accepts the byte, and the character the generator then writes. *)
Definition low6 (b : byte) : Z := Z.land (rand.byte_val b) 63.

Definition accepted (b : byte) : bool := low6 b <? 62.

Definition letter (b : byte) : ascii :=
  match String.get (Z.to_nat (low6 b)) api.alphanumeric with
  | Some c => c
  | None => zero
  end.

(** The 256 values of a byte. *)
Definition all_bytes : list byte := omap Byte.of_nat (seq 0 256).

(** The entry of [ListRedirects] for a record of the store. *)
Definition listed (item : store.UrlObject) : api.RedirectURLItem :=
  {| api.Key := store.Key item; api.ItemURL := store.URL item;
     api.RedirectCount := store.RedirectCount item |}.

(** * Properties *)

(** ** The key generator *)

Section key_generator.

Import api.

Lemma SetBytes_acc_nonneg (bytes : list Z) (acc : Z) :
  0 <= acc -> Forall (fun b => 0 <= b) bytes ->
  0 <= fold_left (fun a b => a * 256 + b) bytes acc.
Proof.
  revert acc. induction bytes as [|b tl IH]; intros acc Hacc Hall; simpl.
  - exact Hacc.
  - inversion Hall as [|? ? Hb Htl]; subst. apply IH; [lia | exact Htl].
Qed.

Lemma byte_val_nonneg (b : byte) : 0 <= rand.byte_val b.
Proof. unfold rand.byte_val. lia. Qed.

Lemma ReadFull_nonneg (k : nat) (rd rd' : list byte) (bytes : list Z) (err : option error) :
  rand.ReadFull k rd = ((bytes, err), rd') -> Forall (fun b => 0 <= b) bytes.
Proof.
  unfold rand.ReadFull. intros Hread.
  destruct (k <=? length rd)%nat; inversion Hread; subst;
    apply Forall_fmap, Forall_forall; intros b _; apply byte_val_nonneg.
Qed.

(** A number the sampling loop hands out is below [max] and not negative;
    with an error it hands out no number. *)
Lemma Int_loop_range (fuel : nat) (max : Z) (k : nat) (b : Z) (rd rd' : list byte)
      (num : option Z) (err : option error) :
  rand.Int_loop fuel max k b rd = ((num, err), rd') ->
  match err with
  | None => exists n, num = Some n /\ 0 <= n < max
  | Some _ => num = None
  end.
Proof.
  revert rd. induction fuel as [|fuel IH]; intros rd Hloop; simpl in Hloop.
  - inversion Hloop; subst. reflexivity.
  - destruct (rand.ReadFull k rd) as [[bytes e] rd1] eqn:Hread.
    destruct e as [e|].
    + inversion Hloop; subst. reflexivity.
    + pose proof (ReadFull_nonneg _ _ _ _ _ Hread) as Hnn.
      match type of Hloop with
      | (if ?n <? max then _ else _) = _ => destruct (Z.ltb_spec n max) as [Hlt|Hge]
      end.
      * inversion Hloop; subst. eexists; split; [reflexivity|]. split; [|exact Hlt].
        unfold rand.SetBytes. apply SetBytes_acc_nonneg; [lia|].
        destruct bytes as [|b0 tl]; [constructor|].
        inversion Hnn; subst. constructor; [|assumption].
        apply Z.land_nonneg. left. assumption.
      * eapply IH. exact Hloop.
Qed.

(** The fuel of the sampling loop is never what stops it. *)
Lemma Int_loop_fuel (max : Z) (k : nat) (b : Z) (fuel1 fuel2 : nat) (rd : list byte) :
  (0 < k)%nat -> (length rd < fuel1)%nat -> (length rd < fuel2)%nat ->
  rand.Int_loop fuel1 max k b rd = rand.Int_loop fuel2 max k b rd.
Proof.
  intros Hk. revert fuel2 rd.
  induction fuel1 as [|fuel1 IH]; intros fuel2 rd H1 H2; [lia|].
  destruct fuel2 as [|fuel2]; [lia|].
  cbn [rand.Int_loop]. unfold rand.ReadFull.
  destruct (Nat.leb_spec k (length rd)) as [Hle|Hgt]; [|reflexivity].
  cbn iota beta.
  match goal with
  | |- (if ?t then _ else _) = _ => destruct t; [reflexivity|]
  end.
  apply IH; rewrite length_drop; lia.
Qed.

Lemma Int_alphanumeric (rd : list byte) :
  exists num err rd',
    rand.Int (Z.of_nat (String.length alphanumeric)) rd = Returns ((num, err), rd') /\
    match err with
    | None => exists n, num = Some n /\ 0 <= n < Z.of_nat (String.length alphanumeric)
    | Some _ => num = None
    end.
Proof.
  change (rand.Int (Z.of_nat (String.length alphanumeric)) rd)
    with (Returns (rand.Int_loop (S (length rd)) 62 1%nat 6 rd)).
  change (Z.of_nat (String.length alphanumeric)) with 62.
  destruct (rand.Int_loop (S (length rd)) 62 1%nat 6 rd) as [[num err] rd'] eqn:Hloop.
  exists num, err, rd'. split; [reflexivity|].
  exact (Int_loop_range _ _ _ _ _ _ _ _ Hloop).
Qed.

Lemma get_In (s : string) (i : nat) (c : ascii) :
  String.get i s = Some c -> In c (list_ascii_of_string s).
Proof.
  revert i. induction s as [|a s IH]; intros i Hget; simpl in *.
  - discriminate.
  - destruct i as [|i]; [inversion Hget; auto | right; eauto].
Qed.

Lemma get_lt (s : string) (i : nat) :
  (i < String.length s)%nat -> exists c, String.get i s = Some c.
Proof.
  revert i. induction s as [|a s IH]; intros i Hlt; simpl in *.
  - lia.
  - destruct i as [|i]; [eauto | apply IH; lia].
Qed.

(** Indexing the alphabet with a number below its length does not panic and
    yields one of its characters. *)
Lemma index_alphanumeric_in_bounds (n : Z) :
  0 <= n < Z.of_nat (String.length alphanumeric) ->
  exists c, index_alphanumeric (Some n) = Returns c /\
            In c (list_ascii_of_string alphanumeric).
Proof.
  intros [Hlo Hhi]. unfold index_alphanumeric.
  destruct (Z.ltb_spec n 0) as [?|_]; [lia|].
  destruct (get_lt alphanumeric (Z.to_nat n)) as [c Hc]; [lia|].
  rewrite Hc. exists c. split; [reflexivity | eapply get_In; exact Hc].
Qed.

Lemma alphanumeric_in_class (c : ascii) :
  In c (list_ascii_of_string alphanumeric) -> in_class c = true.
Proof.
  assert (Hall : forallb in_class (list_ascii_of_string alphanumeric) = true)
    by (vm_compute; reflexivity).
  intros Hin. exact (proj1 (forallb_forall _ _) Hall c Hin).
Qed.

Lemma length_string_of_list_ascii (l : list ascii) :
  String.length (string_of_list_ascii l) = length l.
Proof. induction l as [|a l IH]; simpl; [reflexivity | f_equal; exact IH]. Qed.

(** The loop never panics; it ends with an error and the empty string, or
    with the buffer, in which every position it was still to visit holds a
    character of the alphabet. *)
Lemma generateKey_loop_spec (indices : list nat) :
  forall (key : list ascii) (rd : list byte),
    (forall j c, key !! j = Some c ->
                 j ∈ indices \/ In c (list_ascii_of_string alphanumeric)) ->
    exists k err rd',
      generateKey_loop indices key rd = Returns ((k, err), rd') /\
      match err with
      | Some _ => k = ""
      | None =>
          String.length k = length key /\
          Forall (fun c => In c (list_ascii_of_string alphanumeric))
                 (list_ascii_of_string k)
      end.
Proof.
  induction indices as [|i rest IH]; intros key rd Hinv; cbn [generateKey_loop].
  - exists (string_of_list_ascii key), None, rd. split; [reflexivity|]. split.
    + apply length_string_of_list_ascii.
    + rewrite list_ascii_of_string_of_list_ascii. apply Forall_lookup.
      intros j c Hj. destruct (Hinv j c Hj) as [Hin|Hc]; [|exact Hc].
      inversion Hin.
  - destruct (Int_alphanumeric rd) as (num & err & rd1 & Hint & Hnum).
    rewrite Hint. destruct err as [e|].
    + exists "", (Some e), rd1. split; reflexivity.
    + destruct Hnum as (n & -> & Hn).
      destruct (index_alphanumeric_in_bounds n Hn) as (c & Hc & Hin).
      rewrite Hc.
      destruct (IH (<[i := c]> key) rd1) as (k & err & rd2 & Hloop & Hk).
      * intros j c' Hj. destruct (decide (i = j)) as [->|Hne].
        -- right. apply list_lookup_insert_Some in Hj.
           destruct Hj as [(_ & <- & _)|(Hne & _)]; [exact Hin | congruence].
        -- rewrite list_lookup_insert_ne in Hj by exact Hne.
           destruct (Hinv j c' Hj) as [Hmem|Hc']; [|right; exact Hc'].
           left. apply elem_of_cons in Hmem. destruct Hmem; [congruence|assumption].
      * exists k, err, rd2. split; [exact Hloop|].
        destruct err; [exact Hk|]. rewrite length_insert in Hk. exact Hk.
Qed.

Lemma generateKey_spec (rd : list byte) :
  exists k err rd',
    generateKey rd = Returns ((k, err), rd') /\
    match err with
    | Some _ => k = ""
    | None =>
        String.length k = 16%nat /\
        Forall (fun c => In c (list_ascii_of_string alphanumeric))
               (list_ascii_of_string k)
    end.
Proof.
  unfold generateKey.
  destruct (generateKey_loop_spec (seq 0 16) (replicate 16 zero) rd)
    as (k & err & rd' & Hloop & Hk).
  - intros j c Hj. left. apply lookup_lt_Some in Hj. rewrite length_replicate in Hj.
    apply elem_of_seq. lia.
  - exists k, err, rd'. split; [exact Hloop|].
    destruct err; [exact Hk|]. rewrite length_replicate in Hk. exact Hk.
Qed.

Lemma keyPattern_of_alphabet (k : string) :
  String.length k = 16%nat ->
  Forall (fun c => In c (list_ascii_of_string alphanumeric)) (list_ascii_of_string k) ->
  keyPattern_MatchString k = true.
Proof.
  intros Hlen Hall. unfold keyPattern_MatchString. rewrite Hlen. simpl.
  apply forallb_forall. intros c Hc. apply alphanumeric_in_class.
  rewrite Forall_forall in Hall. apply Hall. apply list_elem_of_In. exact Hc.
Qed.

(** The class [a-zA-Z0-9] of [keyPattern] is the alphabet of the generator. *)
Lemma in_class_alphanumeric (c : ascii) :
  in_class c = true <-> In c (list_ascii_of_string alphanumeric).
Proof.
  assert (Hb : in_class c = existsb (Ascii.eqb c) (list_ascii_of_string alphanumeric)).
  { destruct c as [[] [] [] [] [] [] [] []]; vm_compute; reflexivity. }
  rewrite Hb, existsb_exists. split.
  - intros (x & Hin & Heq). apply Ascii.eqb_eq in Heq. subst x. exact Hin.
  - intros Hin. exists c. split; [exact Hin | apply Ascii.eqb_refl].
Qed.

(** X21: [keyPattern] matches exactly the strings of 16 characters of the
    alphabet. *)
Lemma keyPattern_MatchString_spec (s : string) :
  keyPattern_MatchString s = true <->
  String.length s = 16%nat /\
  Forall (fun c => In c (list_ascii_of_string alphanumeric)) (list_ascii_of_string s).
Proof.
  unfold keyPattern_MatchString. rewrite andb_true_iff, Nat.eqb_eq, forallb_forall.
  rewrite Forall_forall. split; intros [Hlen Hall]; (split; [exact Hlen|]); intros c Hc.
  - apply in_class_alphanumeric, Hall, list_elem_of_In, Hc.
  - apply in_class_alphanumeric, Hall, list_elem_of_In, Hc.
Qed.

Lemma alphanumeric_NoDup : NoDup (list_ascii_of_string alphanumeric).
Proof. refine (bool_decide_unpack _ _). vm_compute. exact I. Qed.

(** C5: a key that [generateKey] returns without an error has exactly 16
    characters, each of them one of the 62 characters of [alphanumeric], so
    the key matches [^[a-zA-Z0-9]{16}$]. *)
Theorem generateKey_matches_keyPattern (rd rd' : list byte) (key : string) :
  generateKey rd = Returns ((key, None), rd') ->
  String.length key = 16%nat /\
  Forall (fun c => In c (list_ascii_of_string alphanumeric)) (list_ascii_of_string key) /\
  String.length alphanumeric = 62%nat /\
  keyPattern_MatchString key = true.
Proof.
  intros Hgen.
  destruct (generateKey_spec rd) as (k & err & rd1 & Hspec & Hk).
  rewrite Hgen in Hspec. inversion Hspec; subst k err rd1.
  destruct Hk as [Hlen Hall].
  repeat split; [exact Hlen | exact Hall | exact (keyPattern_of_alphabet key Hlen Hall)].
Qed.

Lemma generateKey_matches_keyPattern_witness :
  String.length "aaaaaaaaaaaaaaa9" = 16%nat /\
  Forall (fun c => In c (list_ascii_of_string alphanumeric))
         (list_ascii_of_string "aaaaaaaaaaaaaaa9") /\
  String.length alphanumeric = 62%nat /\
  keyPattern_MatchString "aaaaaaaaaaaaaaa9" = true.
Proof.
  apply (generateKey_matches_keyPattern (replicate 15 x00 ++ [xff; x3d; x07]) [x07]).
  reflexivity.
Defined.

(** C10: [generateKey] never indexes [alphanumeric] out of bounds.  From
    any state of the random source, a number [rand.Int] hands out for the
    alphabet is at least 0 and below 62 and indexing with it yields a
    character; and [generateKey] returns rather than panics, with the empty
    string whenever it returns an error. *)
Theorem generateKey_index_in_bounds (rd : list byte) :
  (exists num err rd',
      rand.Int (Z.of_nat (String.length alphanumeric)) rd = Returns ((num, err), rd') /\
      match err with
      | None => exists n c, num = Some n /\ 0 <= n < 62 /\
                            index_alphanumeric num = Returns c
      | Some _ => True
      end) /\
  (exists key err rd',
      generateKey rd = Returns ((key, err), rd') /\
      match err with
      | Some _ => key = ""
      | None => String.length key = 16%nat
      end).
Proof.
  split.
  - destruct (Int_alphanumeric rd) as (num & err & rd' & Hint & Hnum).
    exists num, err, rd'. split; [exact Hint|].
    destruct err; [exact I|]. destruct Hnum as (n & -> & Hn).
    destruct (index_alphanumeric_in_bounds n Hn) as (c & Hc & _).
    exists n, c. repeat split; [apply Hn | apply Hn | exact Hc].
  - destruct (generateKey_spec rd) as (k & err & rd' & Hgen & Hk).
    exists k, err, rd'. split; [exact Hgen|]. destruct err; [exact Hk | apply Hk].
Qed.

End key_generator.

(** ** The DynamoDB client *)

Section client.

Import dynamodb db.

Lemma next_outcome_ok (d : Service) :
  next_ok d = true -> next_outcome d = (None, after_call d).
Proof.
  unfold next_ok, next_outcome, after_call. destruct d as [m [|[e|] os]]; simpl;
    intros Hok; [reflexivity | discriminate | reflexivity].
Qed.

Lemma next_outcome_fault (d : Service) (e : error) (os : list (option error)) :
  outcomes d = Some e :: os ->
  next_outcome d = (Some e, {| items := items d; outcomes := os |}).
Proof. unfold next_outcome. intros ->. reflexivity. Qed.

Lemma GetItem_ok (key : string) (d : Service) :
  next_ok d = true -> GetItem key d = ((items d !! key, None), after_call d).
Proof.
  intros Hok. unfold GetItem, bind. rewrite (next_outcome_ok d Hok). reflexivity.
Qed.

Lemma decode_int64_inl (av : option AttributeValue) (n : Z) :
  decode_int64 av = inl n ->
  (av = None /\ n = 0) \/ (av = Some AttributeValueMemberNULL /\ n = 0) \/
  (av = Some (AttributeValueMemberN n) /\ int64_ok n = true).
Proof.
  destruct av as [[s|m|b|]|]; simpl; intros Hdec; try discriminate.
  - destruct (int64_ok m) eqn:Hok; inversion Hdec; subst. right. right. split; [reflexivity|exact Hok].
  - inversion Hdec. right. left. split; reflexivity.
  - inversion Hdec. left. split; reflexivity.
Qed.

Lemma UnmarshalMap_ok (raw : Item) (item : URLItem) :
  UnmarshalMap raw = (item, None) ->
  decode_string (raw !! "id") = inl (ID item) /\
  decode_string (raw !! "redirect_url") = inl (RedirectURL item) /\
  decode_int64 (raw !! "access_count") = inl (AccessCount item) /\
  decode_int64 (raw !! "created_at") = inl (CreatedAt item).
Proof.
  unfold UnmarshalMap.
  destruct (decode_string (raw !! "id")), (decode_string (raw !! "redirect_url")),
    (decode_int64 (raw !! "access_count")), (decode_int64 (raw !! "created_at"));
    intros Heq; inversion Heq; subst; simpl; repeat split; reflexivity.
Qed.

(** The item [Put] writes for a key, a target and a clock reading. *)
Lemma MarshalMap_lookup (item : URLItem) :
  let av := fst (MarshalMap item) in
  av !! "id" = Some (AttributeValueMemberS (ID item)) /\
  av !! "redirect_url" = Some (AttributeValueMemberS (RedirectURL item)) /\
  av !! "access_count" = Some (AttributeValueMemberN (AccessCount item)) /\
  av !! "created_at" = Some (AttributeValueMemberN (CreatedAt item)) /\
  snd (MarshalMap item) = None.
Proof. simpl. repeat split; by simplify_map_eq. Qed.

(** C7: when the [PutItem] call goes through, [Put] leaves under the key
    the record with the given target, [access_count] 0 and [created_at] the
    clock reading, whatever was stored under the key before; it makes that
    one call only (nothing is read first) and touches no other key. *)
Theorem Put_writes_fresh_record (c : Client) (key value : string) :
  next_ok (DDB c) = true ->
  let av := fst (MarshalMap {| ID := key; RedirectURL := value;
                               AccessCount := 0; CreatedAt := now c |}) in
  exists c',
    Put key value c = (None, c') /\
    items (DDB c') = <[key := av]> (items (DDB c)) /\
    items (DDB c') !! key = Some av /\
    av !! "redirect_url" = Some (AttributeValueMemberS value) /\
    av !! "access_count" = Some (AttributeValueMemberN 0) /\
    av !! "created_at" = Some (AttributeValueMemberN (now c)) /\
    outcomes (DDB c') = tail (outcomes (DDB c)).
Proof.
  intros Hok av.
  eexists. split.
  - unfold Put, bind, gets, call, PutItem, bind. cbn [MarshalMap fst snd].
    rewrite (next_outcome_ok _ Hok). rewrite lookup_insert_eq.
    cbn. reflexivity.
  - cbn. repeat split; try (subst av; cbn; by simplify_map_eq).
Qed.

Lemma Put_writes_fresh_record_witness :
  let c := {| DebugMode := false;
              DDB := {| items := {[ "k" := {[ "id" := AttributeValueMemberS "k";
                                             "access_count" := AttributeValueMemberN 7 ]} ]};
                        outcomes := [None; Some "timeout"] |};
              now := 1700000000; stdout := [] |} in
  let av := fst (MarshalMap {| ID := "k"; RedirectURL := "http://a.b";
                               AccessCount := 0; CreatedAt := 1700000000 |}) in
  exists c',
    Put "k" "http://a.b" c = (None, c') /\
    items (DDB c') = <["k" := av]> (items (DDB c)) /\
    items (DDB c') !! "k" = Some av /\
    av !! "redirect_url" = Some (AttributeValueMemberS "http://a.b") /\
    av !! "access_count" = Some (AttributeValueMemberN 0) /\
    av !! "created_at" = Some (AttributeValueMemberN 1700000000) /\
    outcomes (DDB c') = tail (outcomes (DDB c)).
Proof.
  intros c. apply (Put_writes_fresh_record c "k" "http://a.b"). reflexivity.
Defined.

(** The increment of [Get] on an item that decodes: it raises the stored
    count by one over the decoded count, or fails and leaves the table. *)
Lemma UpdateItem_increment (key : string) (raw : Item) (item : URLItem) (d : Service) :
  items d !! key = Some raw ->
  UnmarshalMap raw = (item, None) ->
  exists err d',
    UpdateItem key (Add "access_count" 1) d = (err, d') /\
    match err with
    | None =>
        items d' =
          <[key := <["access_count" := AttributeValueMemberN (AccessCount item + 1)]> raw]>
            (items d)
    | Some _ => items d' = items d
    end.
Proof.
  intros Hraw Hdec. apply UnmarshalMap_ok in Hdec as (_ & _ & Hcnt & _).
  unfold UpdateItem, bind, gets, next_outcome.
  destruct (outcomes d) as [|[e|] os].
  - rewrite Hraw. unfold apply_add, Add. cbn [add_name add_value].
    apply decode_int64_inl in Hcnt as [[-> ->]|[[-> ->]|[-> _]]];
      eexists _, _; (split; [reflexivity|]); reflexivity.
  - eexists _, _. split; reflexivity.
  - cbn [items]. rewrite Hraw. unfold apply_add, Add. cbn [add_name add_value].
    apply decode_int64_inl in Hcnt as [[-> ->]|[[-> ->]|[-> _]]];
      eexists _, _; (split; [reflexivity|]); reflexivity.
Qed.


(** [Get] does not consult the clock: no expiry is checked on a read. *)
Lemma Get_ignores_clock (debug : bool) (d : Service) (t1 t2 : Z) (out : list string)
      (key : string) :
  fst (Get key {| DebugMode := debug; DDB := d; now := t1; stdout := out |}) =
  fst (Get key {| DebugMode := debug; DDB := d; now := t2; stdout := out |}).
Proof.
  unfold Get, bind, call. cbn [DDB].
  destruct (GetItem key d) as [[result err] d1].
  destruct err as [e|]; [reflexivity|].
  destruct result as [raw|]; [|reflexivity].
  destruct (UnmarshalMap raw) as [item [e|]]; [reflexivity|].
  cbn [Build WithUpdate NewBuilder DDB].
  destruct (UpdateItem key (Add "access_count" 1) d1) as [[e|] d2]; [|reflexivity].
  unfold gets. cbn [DebugMode]. destruct debug; reflexivity.
Qed.

End client.

(** ** The request handlers, over any store *)

Section handlers_any_store.

Import api.

Context {S : Type} {store_S : store.Store S}.

Variable ParseRequestURI : string -> url.URL * option error.


(** A request that fails [render.Bind] is answered through [handleError]:
    500 with the generic body, the reason going to the log only, and the
    store is not called. *)
Lemma CreateRedirect_invalid_body (r : Request) (h : UserHandler S) (e : error) :
  snd (render_Bind ParseRequestURI r) = Some e ->
  CreateRedirect ParseRequestURI r h =
    (http.Error "Internal Server Error" 500,
     {| h_store := h_store h; h_logger := h_logger h ++ [("Handling error", e)];
        Reader := Reader h; calls := calls h |}).
Proof.
  intros Hbind. unfold CreateRedirect.
  destruct (render_Bind ParseRequestURI r) as [data err]. simpl in Hbind. subst err.
  reflexivity.
Qed.



End handlers_any_store.

Section handlers_any_store_failures.

Import api.

Context {S : Type} {store_S : store.Store S}.

Variable ParseRequestURI : string -> url.URL * option error.

(** C2, on the code: a create request whose url is empty is answered 500
    with the generic body, not 400 with the reason; the reason [Bind] gives
    reaches the log only.  The store is not called. *)
Theorem CreateRedirect_empty_url_is_500
        (host : string) (params : list (string * string)) (e : Z) (h : UserHandler S) :
  CreateRedirect ParseRequestURI
    {| Host := host; URLParams := params;
       Decode := ({| URL := ""; ExpiresIn := e |}, None) |} h =
  ({| http.StatusCode := 500; http.Location := None;
      http.Body := http.Text ("Internal Server Error" +:+ db.nl) |},
   {| h_store := h_store h;
      h_logger := h_logger h ++ [("Handling error", "url is required")];
      Reader := Reader h; calls := calls h |}).
Proof. reflexivity. Qed.

(** With no record to list the loop of [ListRedirects] never appends, the
    slice stays nil and is written as [null]. *)
Lemma ListRedirects_no_records (r : Request) (h : UserHandler S)
      (data : slice store.UrlObject) (s' : S) :
  store.List (h_store h) = ((data, None), s') ->
  range data = [] ->
  ListRedirects r h =
    ({| http.StatusCode := 200; http.Location := None;
        http.Body := http.JSON (json.Object [("urls", json.Null)]) |},
     {| h_store := s'; h_logger := h_logger h; Reader := Reader h;
        calls := calls h ++ [CallList] |}).
Proof.
  intros Hlist Hdata. unfold ListRedirects, bind, on_store.
  rewrite Hlist, Hdata. reflexivity.
Qed.

(** Once a record is appended the slice is an array. *)
Lemma ListRedirects_loop_Some (data : list store.UrlObject) (l : list RedirectURLItem) :
  URLs (ListRedirects_loop data {| URLs := Some l |}) =
  Some (l ++ map (fun item => {| Key := store.Key item; ItemURL := store.URL item;
                                 RedirectCount := store.RedirectCount item |}) data).
Proof.
  revert l. induction data as [|item rest IH]; intros l; cbn [ListRedirects_loop map].
  - rewrite app_nil_r. reflexivity.
  - cbn [append URLs]. rewrite IH, <- app_assoc. reflexivity.
Qed.

End handlers_any_store_failures.

(** ** The request handlers over the DynamoDB client *)

Section handlers_on_client.

Import dynamodb db api.

Variable ParseRequestURI : string -> url.URL * option error.

Lemma Get_not_found (c : Client) (key : string) :
  next_ok (DDB c) = true ->
  items (DDB c) !! key = None ->
  Get key c = ((store.zero, None), served c).
Proof.
  intros Hok Hnone. unfold Get, bind, call.
  rewrite (GetItem_ok key _ Hok), Hnone. reflexivity.
Qed.

Lemma Get_fault (c : Client) (key : string) (e : error) (os : list (option error)) :
  outcomes (DDB c) = Some e :: os ->
  fst (Get key c) = (store.zero, Some ("failed to get item: " +:+ e)).
Proof.
  intros Hos. unfold Get, bind, call, GetItem, bind.
  rewrite (next_outcome_fault _ e os Hos). reflexivity.
Qed.

Lemma Get_returns_record (c : Client) (key : string) (raw : Item) (item : URLItem) :
  next_ok (DDB c) = true ->
  items (DDB c) !! key = Some raw ->
  UnmarshalMap raw = (item, None) ->
  fst (Get key c) =
    ({| store.Key := ID item; store.URL := RedirectURL item;
        store.RedirectCount := AccessCount item |}, None).
Proof.
  intros Hok Hraw Hdec. unfold Get, bind, call.
  rewrite (GetItem_ok key _ Hok), Hraw, Hdec.
  cbn [Build WithUpdate NewBuilder DDB].
  destruct (UpdateItem key (Add "access_count" 1) (after_call (DDB c))) as [[e|] d'].
  - unfold gets. cbn [DebugMode]. destruct (DebugMode c); reflexivity.
  - reflexivity.
Qed.

Lemma Put_ok (c : Client) (key value : string) :
  next_ok (DDB c) = true ->
  Put key value c =
    (None,
     {| DebugMode := DebugMode c;
        DDB := {| items :=
                    <[key := fst (MarshalMap {| ID := key; RedirectURL := value;
                                                AccessCount := 0; CreatedAt := now c |})]>
                      (items (DDB c));
                  outcomes := tail (outcomes (DDB c)) |};
        now := now c; stdout := stdout c |}).
Proof.
  intros Hok. unfold Put, bind, gets, call, PutItem, bind. cbn [MarshalMap fst snd].
  rewrite (next_outcome_ok _ Hok). rewrite lookup_insert_eq. reflexivity.
Qed.

Lemma Delete_ok (c : Client) (key : string) :
  next_ok (DDB c) = true ->
  Delete key c =
    (None,
     {| DebugMode := DebugMode c;
        DDB := {| items := delete key (items (DDB c));
                  outcomes := tail (outcomes (DDB c)) |};
        now := now c; stdout := stdout c |}).
Proof.
  intros Hok. unfold Delete, bind, call, DeleteItem, bind.
  rewrite (next_outcome_ok _ Hok). reflexivity.
Qed.

(** What [Put] stores reads back as the record it was built from. *)
Lemma UnmarshalMap_MarshalMap (item : URLItem) :
  int64_ok (AccessCount item) = true ->
  int64_ok (CreatedAt item) = true ->
  UnmarshalMap (fst (MarshalMap item)) = (item, None).
Proof.
  intros Hcnt Hat. destruct (MarshalMap_lookup item) as (Hid & Hurl & Hc & Ha & _).
  unfold UnmarshalMap. rewrite Hid, Hurl, Hc, Ha. cbn [decode_string decode_int64].
  rewrite Hcnt, Hat. destruct item; reflexivity.
Qed.

Lemma append_slash_g_nonempty (host key : string) :
  String.eqb (host +:+ "/g/" +:+ key) "" = false.
Proof. destruct host; reflexivity. Qed.

Lemma List_empty_table (c : Client) :
  next_ok (DDB c) = true ->
  items (DDB c) = ∅ ->
  List c = ((Some [], None), served c).
Proof.
  intros Hok Hempty. unfold List, bind, call, Scan, bind.
  rewrite (next_outcome_ok _ Hok). unfold gets. cbn [items after_call].
  rewrite Hempty, map_to_list_empty. reflexivity.
Qed.

(** C3, on the code: with an empty table and the scan going through,
    [ListRedirects] answers 200 with the body [{"urls": null}], not
    [{"urls": []}]. *)
Theorem ListRedirects_empty_table_is_null
        (r : Request) (debug : bool) (t : Z) (out : list string)
        (lg : list (string * error)) (rd : list byte) (cs : list StoreCall) :
  let c := {| DebugMode := debug; DDB := {| items := ∅; outcomes := [] |};
              now := t; stdout := out |} in
  ListRedirects r {| h_store := c; h_logger := lg; Reader := rd; calls := cs |} =
  ({| http.StatusCode := 200; http.Location := None;
      http.Body := http.JSON (json.Object [("urls", json.Null)]) |},
   {| h_store := c; h_logger := lg; Reader := rd; calls := cs ++ [CallList] |}).
Proof.
  intros c.
  exact (ListRedirects_no_records r
           {| h_store := c; h_logger := lg; Reader := rd; calls := cs |}
           (Some []) c (List_empty_table c eq_refl eq_refl) eq_refl).
Qed.

(** C8: [DeleteRedirect] passes the path key to the store as it is, whatever
    its format and whether or not the table has it.  When the [DeleteItem]
    call goes through, [Delete] returns no error, the key is gone, the other
    keys are untouched, and the answer is 200 with the message
    "Redirect deleted successfully". *)
Theorem DeleteRedirect_any_key (r : Request) (h : UserHandler Client) :
  next_ok (DDB (h_store h)) = true ->
  let key := URLParam r "key" in
  exists c',
    store.Delete key (h_store h) = (None, c') /\
    items (DDB c') = delete key (items (DDB (h_store h))) /\
    DeleteRedirect r h =
      ({| http.StatusCode := 200; http.Location := None;
          http.Body := http.JSON
                         (json.Object
                            [("message", json.String "Redirect deleted successfully")]) |},
       {| h_store := c'; h_logger := h_logger h; Reader := Reader h;
          calls := calls h ++ [CallDelete key] |}).
Proof.
  intros Hok key. eexists. split; [exact (Delete_ok _ key Hok)|]. split; [reflexivity|].
  unfold DeleteRedirect, bind, on_store. fold key.
  change (store.Delete key (h_store h)) with (Delete key (h_store h)).
  rewrite (Delete_ok _ key Hok). reflexivity.
Qed.

Lemma DeleteRedirect_any_key_witness :
  let h := {| h_store := {| DebugMode := false;
                            DDB := {| items := ∅; outcomes := [] |};
                            now := 0; stdout := [] |};
              h_logger := []; Reader := []; calls := [] |} in
  let r := {| Host := "t.io"; URLParams := [("key", "no-such-key")];
              Decode := ({| URL := ""; ExpiresIn := 0 |}, Some "EOF") |} in
  exists c',
    store.Delete "no-such-key" (h_store h) = (None, c') /\
    items (DDB c') = delete "no-such-key" (items (DDB (h_store h))) /\
    DeleteRedirect r h =
      ({| http.StatusCode := 200; http.Location := None;
          http.Body := http.JSON
                         (json.Object
                            [("message", json.String "Redirect deleted successfully")]) |},
       {| h_store := c'; h_logger := h_logger h; Reader := Reader h;
          calls := calls h ++ [CallDelete "no-such-key"] |}).
Proof.
  intros h r. apply (DeleteRedirect_any_key r h). reflexivity.
Defined.



(** X20: [Redirect] on a well-formed key the table does not have: 404. *)
Lemma Redirect_unknown_key (r : Request) (h : UserHandler Client) :
  keyPattern_MatchString (URLParam r "key") = true ->
  next_ok (DDB (h_store h)) = true ->
  items (DDB (h_store h)) !! URLParam r "key" = None ->
  fst (Redirect r h) = http.NotFound.
Proof.
  intros Hkey Hok Hnone. unfold Redirect. rewrite Hkey. cbn [negb].
  unfold bind, on_store.
  change (store.Get (URLParam r "key") (h_store h))
    with (Get (URLParam r "key") (h_store h)).
  rewrite (Get_not_found _ _ Hok Hnone). reflexivity.
Qed.

(** [Redirect] when the [GetItem] call fails: 500. *)
Lemma Redirect_storage_error (r : Request) (h : UserHandler Client)
      (e : error) (os : list (option error)) :
  keyPattern_MatchString (URLParam r "key") = true ->
  outcomes (DDB (h_store h)) = Some e :: os ->
  fst (Redirect r h) = http.Error "Internal Server Error" 500.
Proof.
  intros Hkey Hos. unfold Redirect. rewrite Hkey. cbn [negb].
  unfold bind, on_store.
  change (store.Get (URLParam r "key") (h_store h))
    with (Get (URLParam r "key") (h_store h)).
  pose proof (Get_fault (h_store h) (URLParam r "key") e os Hos) as Hget.
  destruct (Get (URLParam r "key") (h_store h)) as [[value err] c'].
  cbn [fst] in Hget. inversion Hget; subst. reflexivity.
Qed.

End handlers_on_client.

(** ** Instances *)

Section instances.

Import dynamodb db api.



(** The record of the instance above, read twice with the update going
    through: the second read sees the count raised by one. *)
Example Get_twice :
  let raw : Item := {[ "id" := AttributeValueMemberS "k";
                       "redirect_url" := AttributeValueMemberS "http://a.b";
                       "access_count" := AttributeValueMemberN 4 ]} in
  let c := {| DebugMode := true;
              DDB := {| items := {[ "k" := raw ]}; outcomes := [] |};
              now := 0; stdout := [] |} in
  store.RedirectCount (fst (fst (Get "k" c))) = 4 /\
  store.RedirectCount (fst (fst (Get "k" (snd (Get "k" c))))) = 5.
Proof. split; vm_compute; reflexivity. Qed.

(** [CreateRedirect] drops the error of [generateKey]: when the random
    source fails, the url is put under the empty key and, that call going
    through, the answer is still 201; [Redirect] rejects that key. *)
Example CreateRedirect_drops_key_error :
  let parse := fun s : string =>
    ({| url.Scheme := "https"; url.Host := "example.com" |}, @None error) in
  let data := {| URL := "https://example.com/page"; ExpiresIn := 0 |} in
  let r := {| Host := "t.io"; URLParams := []; Decode := (data, None) |} in
  let h := {| h_store := {| DebugMode := false;
                            DDB := {| items := ∅; outcomes := [] |};
                            now := 1700000000; stdout := [] |};
              h_logger := []; Reader := []; calls := [] |} in
  fst (CreateRedirect parse r h) =
    {| http.StatusCode := 201; http.Location := None;
       http.Body := http.JSON (json.Object [("short_url", json.String "t.io/g/")]) |} /\
  calls (snd (CreateRedirect parse r h)) = [CallPut "" "https://example.com/page"] /\
  fst (Redirect {| Host := "t.io"; URLParams := [("key", "")]; Decode := (data, None) |}
                (snd (CreateRedirect parse r h))) =
    http.Error "Invalid key format" 400.
Proof. repeat split; vm_compute; reflexivity. Qed.

(** The bodies the specification lists as invalid, under a parser that
    treats them as [net/url] does: each is answered 500. *)
Example CreateRedirect_invalid_urls :
  let parse := fun s : string =>
    if String.eqb s "ftp://x.com"
    then ({| url.Scheme := "ftp"; url.Host := "x.com" |}, @None error)
    else if String.eqb s "http://"
    then ({| url.Scheme := "http"; url.Host := "" |}, None)
    else ({| url.Scheme := ""; url.Host := "" |}, Some "invalid URI for request") in
  let h := {| h_store := {| DebugMode := false;
                            DDB := {| items := ∅; outcomes := [] |};
                            now := 0; stdout := [] |};
              h_logger := []; Reader := replicate 16 x00; calls := [] |} in
  let post := fun u : string =>
    CreateRedirect parse
      {| Host := "t.io"; URLParams := [];
         Decode := ({| URL := u; ExpiresIn := 0 |}, None) |} h in
  (http.StatusCode (fst (post "not-a-url")) = 500 /\
   h_logger (snd (post "not-a-url")) = [("Handling error", "invalid url format")]) /\
  (http.StatusCode (fst (post "ftp://x.com")) = 500 /\
   h_logger (snd (post "ftp://x.com")) =
     [("Handling error", "url must use http or https scheme")]) /\
  (http.StatusCode (fst (post "http://")) = 500 /\
   h_logger (snd (post "http://")) = [("Handling error", "url must have a valid host")]) /\
  calls (snd (post "not-a-url")) = [] /\
  calls (snd (post "ftp://x.com")) = [] /\
  calls (snd (post "http://")) = [].
Proof. repeat split; vm_compute; reflexivity. Qed.

(** The character class of [keyPattern] at its borders, and a key with a
    trailing newline, which [$] does not let through. *)
Example keyPattern_borders :
  forallb in_class (list_ascii_of_string "azAZ09") = true /\
  existsb in_class (list_ascii_of_string "`{@[/:-_ ") = false /\
  keyPattern_MatchString "abcdefghABCDEFGH" = true /\
  keyPattern_MatchString "abcdefghABCDEFG" = false /\
  keyPattern_MatchString ("abcdefghABCDEFGH" +:+ nl) = false /\
  keyPattern_MatchString "abcdefghABCDEFG-" = false.
Proof. repeat split; reflexivity. Qed.

(** End to end on a healthy empty table: create, redirect, delete, redirect
    again. *)
Example create_redirect_delete_redirect :
  let parse := fun s : string =>
    ({| url.Scheme := "https"; url.Host := "example.com" |}, @None error) in
  let data := {| URL := "https://example.com/page"; ExpiresIn := 0 |} in
  let post := {| Host := "host"; URLParams := []; Decode := (data, None) |} in
  let on_key := {| Host := "host"; URLParams := [("key", "aaaaaaaaaaaaaaaa")];
                   Decode := ({| URL := ""; ExpiresIn := 0 |}, Some "EOF") |} in
  let h0 := {| h_store := {| DebugMode := false;
                             DDB := {| items := ∅; outcomes := [] |};
                             now := 1700000000; stdout := [] |};
               h_logger := []; Reader := replicate 16 x00; calls := [] |} in
  let '(created, h1) := CreateRedirect parse post h0 in
  let '(found, h2) := Redirect on_key h1 in
  let '(deleted, h3) := DeleteRedirect on_key h2 in
  let '(gone, h4) := Redirect on_key h3 in
  created =
    {| http.StatusCode := 201; http.Location := None;
       http.Body := http.JSON
                      (json.Object [("short_url", json.String "host/g/aaaaaaaaaaaaaaaa")]) |} /\
  (http.StatusCode found = 302 /\ http.Location found = Some "https://example.com/page") /\
  http.StatusCode deleted = 200 /\
  http.StatusCode gone = 404 /\
  calls h4 = [CallPut "aaaaaaaaaaaaaaaa" "https://example.com/page";
              CallGet "aaaaaaaaaaaaaaaa"; CallDelete "aaaaaaaaaaaaaaaa";
              CallGet "aaaaaaaaaaaaaaaa"].
Proof. vm_compute. repeat split; reflexivity. Qed.

End instances.

(** ** More on the DynamoDB client: reads *)

Section client_reads.

Import dynamodb db.

Lemma UpdateItem_reply (key : string) (expr : Expression) (d : Service) :
  outcomes (snd (UpdateItem key expr d)) = tail (outcomes d).
Proof.
  unfold UpdateItem, bind, next_outcome, gets.
  destruct (outcomes d) as [|[e|] os] eqn:Hos; cbn.
  - destruct (apply_add expr _); cbn; rewrite ?Hos; reflexivity.
  - reflexivity.
  - destruct (apply_add expr _); cbn; reflexivity.
Qed.



(** A key the table does not have: [Get] returns the zero record and no
    error after the one [GetItem] call; no update is sent and nothing is
    printed. *)
Theorem Get_missing_key (c : Client) (key : string) :
  next_ok (DDB c) = true ->
  items (DDB c) !! key = None ->
  Get key c = ((store.zero, None), served c) /\
  outcomes (DDB (snd (Get key c))) = tail (outcomes (DDB c)).
Proof.
  intros Hok Hnone. rewrite (Get_not_found c key Hok Hnone). split; reflexivity.
Qed.

Lemma Get_missing_key_witness :
  let c := {| DebugMode := true;
              DDB := {| items := {[ "other" := ∅ ]}; outcomes := [None; Some "down"] |};
              now := 0; stdout := [] |} in
  Get "k" c = ((store.zero, None), served c) /\
  outcomes (DDB (snd (Get "k" c))) = tail (outcomes (DDB c)).
Proof.
  intros c. apply (Get_missing_key c "k"); reflexivity.
Defined.



End client_reads.

Section client_counts.

Import dynamodb db.

(** The table after [Get]: as before, or with the count of the key's item
    set to the decoded count plus one. *)
Lemma Get_table_effect (c : Client) (key : string) :
  items (DDB (snd (Get key c))) = items (DDB c) \/
  exists raw item,
    items (DDB c) !! key = Some raw /\
    UnmarshalMap raw = (item, None) /\
    items (DDB (snd (Get key c))) =
      <[key := <["access_count" := AttributeValueMemberN (AccessCount item + 1)]> raw]>
        (items (DDB c)).
Proof.
  destruct c as [debug d t out]. cbn [DDB].
  unfold Get, bind, call, GetItem, bind, next_outcome, gets. cbn [DDB].
  destruct (outcomes d) as [|[e|] os]; cbn [ret items DDB snd].
  2: { left. reflexivity. }
  all: destruct (items d !! key) as [raw|] eqn:Hraw; [|left; reflexivity].
  all: destruct (UnmarshalMap raw) as [item [?|]] eqn:Hdec; [left; reflexivity|].
  all: cbn [Build WithUpdate NewBuilder DDB].
  all: match goal with
       | |- context [UpdateItem ?k ?x ?dd] =>
           destruct (UpdateItem_increment k raw item dd Hraw Hdec)
             as (err & d' & Hupd & Hitems); rewrite Hupd
       end.
  all: cbn [items] in Hitems.
  all: destruct err;
    [cbn [DebugMode]; destruct debug; cbn; left; exact Hitems
    |cbn; right; exists raw, item; auto].
Qed.

(** X3: [Get] never adds or removes a record, never touches another key, and
    leaves every attribute of the key's item but [access_count] as it was. *)
Theorem Get_keeps_other_data (c : Client) (key k attr : string) :
  let before := items (DDB c) in
  let after := items (DDB (snd (Get key c))) in
  (is_Some (after !! k) <-> is_Some (before !! k)) /\
  (k = key /\ attr = "access_count" \/
   (after !! k) ≫= (fun raw => raw !! attr) = (before !! k) ≫= (fun raw => raw !! attr)).
Proof.
  cbn zeta.
  destruct (Get_table_effect c key) as [->|(raw & item & Hraw & _ & ->)].
  - split; [reflexivity | right; reflexivity].
  - destruct (decide (key = k)) as [<-|Hne].
    + rewrite lookup_insert_eq, Hraw. split; [split; eauto|].
      destruct (decide (attr = "access_count")) as [->|Hattr]; [left; auto|].
      right. cbn. rewrite lookup_insert_ne by congruence. reflexivity.
    + rewrite lookup_insert_ne by exact Hne. split; [reflexivity | right; reflexivity].
Qed.

Lemma stored_count_decoded (raw : Item) (item : URLItem) :
  UnmarshalMap raw = (item, None) -> stored_count raw = AccessCount item.
Proof.
  intros Hdec. apply UnmarshalMap_ok in Hdec as (_ & _ & Hcnt & _).
  unfold stored_count.
  apply decode_int64_inl in Hcnt as [[-> ->]|[[-> ->]|[-> _]]]; reflexivity.
Qed.

(** X4: One [Get] moves no stored count down and none up by more than one. *)
Theorem Get_count_step (c : Client) (key k : string) (raw raw' : Item) :
  items (DDB c) !! k = Some raw ->
  items (DDB (snd (Get key c))) !! k = Some raw' ->
  stored_count raw <= stored_count raw' <= stored_count raw + 1.
Proof.
  intros Hbefore Hafter.
  destruct (Get_table_effect c key) as [Heq|(raw0 & item & Hraw & Hdec & Heq)];
    rewrite Heq in Hafter.
  - assert (raw' = raw) by congruence. subst. lia.
  - destruct (decide (key = k)) as [<-|Hne].
    + rewrite lookup_insert_eq in Hafter. inversion Hafter; subst raw'.
      assert (raw0 = raw) by congruence. subst raw0.
      rewrite (stored_count_decoded raw item Hdec).
      unfold stored_count. rewrite lookup_insert_eq. lia.
    + rewrite lookup_insert_ne in Hafter by exact Hne.
      assert (raw' = raw) by congruence. subst. lia.
Qed.

Lemma Get_count_step_witness :
  let raw : Item := {[ "id" := AttributeValueMemberS "k";
                       "access_count" := AttributeValueMemberN 4 ]} in
  let raw' : Item := <["access_count" := AttributeValueMemberN 5]> raw in
  stored_count raw <= stored_count raw' <= stored_count raw + 1.
Proof.
  intros raw raw'.
  apply (Get_count_step
           {| DebugMode := false;
              DDB := {| items := {[ "k" := raw ]}; outcomes := [] |};
              now := 0; stdout := [] |} "k" "k" raw raw').
  - reflexivity.
  - vm_compute. reflexivity.
Defined.

End client_counts.

(** ** More on the DynamoDB client: writes and how the operations compose *)

Section client_writes.

Import dynamodb db.






End client_writes.

Section client_compose.

Import dynamodb db.

Lemma all_ok_next (c : Client) : all_ok c -> next_ok (DDB c) = true.
Proof. unfold all_ok, next_ok. intros ->. reflexivity. Qed.

(** X6: Write then read: after a [Put] that went through, [Get] returns the
    key, the target and the count 0, whatever the table held under the key
    before (a record that is overwritten loses its count). *)
Theorem Put_then_Get (c : Client) (key value : string) :
  all_ok c ->
  int64_ok (now c) = true ->
  fst (Get key (snd (Put key value c))) =
    ({| store.Key := key; store.URL := value; store.RedirectCount := 0 |}, None).
Proof.
  intros Hall Hclock. rewrite (Put_ok c key value (all_ok_next c Hall)). cbn [snd].
  apply (Get_returns_record _ key
           (fst (MarshalMap {| ID := key; RedirectURL := value; AccessCount := 0;
                               CreatedAt := now c |}))
           {| ID := key; RedirectURL := value; AccessCount := 0; CreatedAt := now c |}).
  - unfold next_ok. cbn [DDB outcomes]. rewrite Hall. reflexivity.
  - cbn [DDB items]. apply lookup_insert_eq.
  - apply UnmarshalMap_MarshalMap; [reflexivity | exact Hclock].
Qed.

Lemma Put_then_Get_witness :
  let c := {| DebugMode := false;
              DDB := {| items := {[ "k" := {[ "id" := AttributeValueMemberS "k";
                                             "redirect_url" := AttributeValueMemberS "http://old";
                                             "access_count" := AttributeValueMemberN 9 ]} ]};
                        outcomes := [] |};
              now := 1700000000; stdout := [] |} in
  fst (Get "k" (snd (Put "k" "http://new" c))) =
    ({| store.Key := "k"; store.URL := "http://new"; store.RedirectCount := 0 |}, None).
Proof.
  intros c. apply (Put_then_Get c "k" "http://new"); reflexivity.
Defined.

(** X7: Last write wins: two [Put]s on a key leave the table that the second
    alone would leave. *)
Theorem Put_last_write_wins (c : Client) (key v1 v2 : string) :
  all_ok c ->
  items (DDB (snd (Put key v2 (snd (Put key v1 c))))) =
  items (DDB (snd (Put key v2 c))).
Proof.
  intros Hall. rewrite (Put_ok c key v1 (all_ok_next c Hall)). cbn [snd].
  rewrite (Put_ok c key v2 (all_ok_next c Hall)).
  rewrite Put_ok by (unfold next_ok; cbn [DDB outcomes]; rewrite Hall; reflexivity).
  cbn [snd DDB items now]. apply insert_insert_eq.
Qed.

Lemma Put_last_write_wins_witness :
  let c := {| DebugMode := false; DDB := {| items := ∅; outcomes := [] |};
              now := 5; stdout := [] |} in
  items (DDB (snd (Put "k" "http://b" (snd (Put "k" "http://a" c))))) =
  items (DDB (snd (Put "k" "http://b" c))).
Proof.
  intros c. apply (Put_last_write_wins c "k" "http://a" "http://b"). reflexivity.
Defined.

(** X8: Delete then read: after a [Delete] that went through, [Get] finds
    nothing, whether or not the key had a record. *)
Theorem Delete_then_Get (c : Client) (key : string) :
  all_ok c ->
  fst (Get key (snd (Delete key c))) = (store.zero, None).
Proof.
  intros Hall. rewrite (Delete_ok c key (all_ok_next c Hall)). cbn [snd].
  rewrite Get_not_found; [reflexivity | |].
  - unfold next_ok. cbn [DDB outcomes]. rewrite Hall. reflexivity.
  - cbn [DDB items]. apply lookup_delete_eq.
Qed.

Lemma Delete_then_Get_witness :
  let c := {| DebugMode := false;
              DDB := {| items := {[ "k" := {[ "id" := AttributeValueMemberS "k" ]} ]};
                        outcomes := [] |};
              now := 0; stdout := [] |} in
  fst (Get "k" (snd (Delete "k" c))) = (store.zero, None).
Proof.
  intros c. apply (Delete_then_Get c "k"). reflexivity.
Defined.

(** X9: [Delete] is idempotent on the table, and on a key without a record it
    changes nothing. *)
Theorem Delete_idempotent (c : Client) (key : string) :
  all_ok c ->
  items (DDB (snd (Delete key (snd (Delete key c))))) = items (DDB (snd (Delete key c))) /\
  (items (DDB c) !! key = None -> items (DDB (snd (Delete key c))) = items (DDB c)).
Proof.
  intros Hall. rewrite (Delete_ok c key (all_ok_next c Hall)). cbn [snd].
  rewrite Delete_ok by (unfold next_ok; cbn [DDB outcomes]; rewrite Hall; reflexivity).
  cbn [snd DDB items]. split.
  - apply delete_id. apply lookup_delete_eq.
  - intros Hnone. apply delete_id. exact Hnone.
Qed.

Lemma Delete_idempotent_witness :
  let c := {| DebugMode := false;
              DDB := {| items := {[ "k" := {[ "id" := AttributeValueMemberS "k" ]} ]};
                        outcomes := [] |};
              now := 0; stdout := [] |} in
  items (DDB (snd (Delete "k" (snd (Delete "k" c))))) = items (DDB (snd (Delete "k" c))) /\
  (items (DDB c) !! "k" = None -> items (DDB (snd (Delete "k" c))) = items (DDB c)).
Proof.
  intros c. apply (Delete_idempotent c "k"). reflexivity.
Defined.

(** X10: A [Put] or a [Delete] whose SDK call fails returns the call's error,
    wrapped, and leaves the table as it was. *)
Theorem write_failure_keeps_table (c : Client) (key value : string) (e : error)
        (os : list (option error)) :
  outcomes (DDB c) = Some e :: os ->
  (fst (Put key value c) = Some ("failed to put item: " +:+ e) /\
   items (DDB (snd (Put key value c))) = items (DDB c)) /\
  (fst (Delete key c) = Some ("failed to delete item: " +:+ e) /\
   items (DDB (snd (Delete key c))) = items (DDB c)).
Proof.
  intros Hos. split.
  - unfold Put, bind, gets, call, PutItem, bind. cbn [MarshalMap fst snd].
    rewrite (next_outcome_fault _ e os Hos). split; reflexivity.
  - unfold Delete, bind, call, DeleteItem, bind.
    rewrite (next_outcome_fault _ e os Hos). split; reflexivity.
Qed.

Lemma write_failure_keeps_table_witness :
  let c := {| DebugMode := false;
              DDB := {| items := {[ "k" := {[ "id" := AttributeValueMemberS "k" ]} ]};
                        outcomes := [Some "throttled"] |};
              now := 0; stdout := [] |} in
  (fst (Put "k" "http://a.b" c) = Some ("failed to put item: " +:+ "throttled") /\
   items (DDB (snd (Put "k" "http://a.b" c))) = items (DDB c)) /\
  (fst (Delete "k" c) = Some ("failed to delete item: " +:+ "throttled") /\
   items (DDB (snd (Delete "k" c))) = items (DDB c)).
Proof.
  intros c. apply (write_failure_keeps_table c "k" "http://a.b" "throttled" []).
  reflexivity.
Defined.

(** X11: [Put] and [Delete] on one key never touch the record of another. *)
Theorem writes_keep_other_keys (c : Client) (key value k : string) :
  k <> key ->
  items (DDB (snd (Put key value c))) !! k = items (DDB c) !! k /\
  items (DDB (snd (Delete key c))) !! k = items (DDB c) !! k.
Proof.
  intros Hne. split.
  - unfold Put, bind, gets, call, PutItem, bind, next_outcome. cbn [MarshalMap fst snd].
    destruct (outcomes (DDB c)) as [|[e|] os]; cbn [DDB];
      rewrite ?lookup_insert_eq; cbn; rewrite ?lookup_insert_ne by congruence; reflexivity.
  - unfold Delete, bind, call, DeleteItem, bind, next_outcome.
    destruct (outcomes (DDB c)) as [|[e|] os]; cbn;
      rewrite ?lookup_delete_ne by congruence; reflexivity.
Qed.

Lemma writes_keep_other_keys_witness :
  let c := {| DebugMode := false;
              DDB := {| items := {[ "other" := {[ "id" := AttributeValueMemberS "other" ]} ]};
                        outcomes := [] |};
              now := 0; stdout := [] |} in
  items (DDB (snd (Put "k" "http://a.b" c))) !! "other" = items (DDB c) !! "other" /\
  items (DDB (snd (Delete "k" c))) !! "other" = items (DDB c) !! "other".
Proof.
  intros c. apply (writes_keep_other_keys c "k" "http://a.b" "other"). discriminate.
Defined.

End client_compose.

(** ** More on the DynamoDB client: listing *)

Section client_list.

Import dynamodb db.

(** The loop of [List]: it appends the record of every item that decodes, in
    the order scanned, skips the others, and prints a line for each skipped
    item in debug mode only. *)
Lemma List_loop_spec (l : list Item) :
  forall (acc : list store.UrlObject) (c : Client),
    List_loop l (Some acc) c =
      (Some (acc ++ omap decoded l),
       {| DebugMode := DebugMode c; DDB := DDB c; now := now c;
          stdout := stdout c ++
                    (if DebugMode c then concat (unmarshal_line <$> l) else []) |}).
Proof.
  induction l as [|raw l IH]; intros acc c; cbn [List_loop omap list_omap fmap list_fmap concat].
  - unfold ret. destruct c as [debug d t out]. cbn [DebugMode DDB now stdout].
    rewrite app_nil_r. destruct debug; rewrite app_nil_r; reflexivity.
  - unfold decoded at 1, unmarshal_line at 1.
    destruct (UnmarshalMap raw) as [urlItem [e|]] eqn:Hdec; cbn [snd].
    + unfold bind, gets. destruct (DebugMode c) eqn:Hdebug.
      * unfold Printf, modify. rewrite IH. cbn [DebugMode DDB now stdout].
        rewrite <- app_assoc, Hdebug. reflexivity.
      * unfold ret. rewrite IH. rewrite Hdebug. reflexivity.
    + cbn [append]. rewrite IH, <- app_assoc. reflexivity.
Qed.








(** A scan that fails: [List] returns the nil slice and the wrapped error,
    and prints nothing. *)
Theorem List_scan_failure (c : Client) (e : error) (os : list (option error)) :
  outcomes (DDB c) = Some e :: os ->
  List c =
    ((None, Some ("failed to scan table: " +:+ e)),
     {| DebugMode := DebugMode c;
        DDB := {| items := items (DDB c); outcomes := os |};
        now := now c; stdout := stdout c |}).
Proof.
  intros Hos. unfold List, bind, call, Scan, bind.
  rewrite (next_outcome_fault _ e os Hos). reflexivity.
Qed.

Lemma List_scan_failure_witness :
  let c := {| DebugMode := true;
              DDB := {| items := {[ "a" := ∅ ]}; outcomes := [Some "timeout"; None] |};
              now := 0; stdout := [] |} in
  List c =
    ((None, Some ("failed to scan table: " +:+ "timeout")),
     {| DebugMode := true;
        DDB := {| items := items (DDB c); outcomes := [None] |};
        now := 0; stdout := [] |}).
Proof.
  intros c. apply (List_scan_failure c "timeout" [None]). reflexivity.
Defined.

(** X14: [List] never writes to the table: unlike [Get], it raises no count. *)
Theorem List_never_writes (c : Client) :
  items (DDB (snd (List c))) = items (DDB c).
Proof.
  unfold List, bind, call, Scan, bind, next_outcome.
  destruct (outcomes (DDB c)) as [|[e|] os]; unfold gets, make_empty, ret; cbn [DDB items];
    rewrite ?List_loop_spec; reflexivity.
Qed.



End client_list.

(** ** More on the request handlers, over any store *)

Section handlers_more.

Import api.

Context {S : Type} {store_S : store.Store S}.

Variable ParseRequestURI : string -> url.URL * option error.

Lemma ListRedirects_loop_records (x : store.UrlObject) (l : list store.UrlObject) :
  URLs (ListRedirects_loop (x :: l) {| URLs := None |}) = Some (listed <$> x :: l).
Proof.
  cbn [ListRedirects_loop append URLs]. rewrite ListRedirects_loop_Some. reflexivity.
Qed.

(** X16: [ListRedirects] on a store that returns records: 200 with an array that
    has one entry per record, in the store's order, each with the record's
    key, url and count. *)
Theorem ListRedirects_with_records (r : Request) (h : UserHandler S)
        (data : slice store.UrlObject) (s' : S)
        (x : store.UrlObject) (l : list store.UrlObject) :
  store.List (h_store h) = ((data, None), s') ->
  range data = x :: l ->
  ListRedirects r h =
    ({| http.StatusCode := 200; http.Location := None;
        http.Body :=
          http.JSON
            (json.Object
               [("urls",
                 json.Array
                   ((fun item =>
                       json.Object [("key", json.String (store.Key item));
                                    ("url", json.String (store.URL item));
                                    ("redirect_count",
                                     json.Number (store.RedirectCount item))])
                      <$> x :: l))]) |},
     {| h_store := s'; h_logger := h_logger h; Reader := Reader h;
        calls := calls h ++ [CallList] |}).
Proof.
  intros Hlist Hdata. unfold ListRedirects, bind, on_store. rewrite Hlist, Hdata.
  unfold respondJSON, ret, marshal_RedirectURLListResponse.
  rewrite ListRedirects_loop_records. rewrite <- list_fmap_compose. reflexivity.
Qed.

End handlers_more.

Lemma ListRedirects_with_records_witness :
  let good : dynamodb.Item :=
    {[ "id" := dynamodb.AttributeValueMemberS "a";
       "redirect_url" := dynamodb.AttributeValueMemberS "http://a.b";
       "access_count" := dynamodb.AttributeValueMemberN 2 ]} in
  let c := {| db.DebugMode := false;
              db.DDB := {| dynamodb.items := {[ "a" := good ]}; dynamodb.outcomes := [] |};
              db.now := 0; db.stdout := [] |} in
  let h := {| api.h_store := c; api.h_logger := []; api.Reader := []; api.calls := [] |} in
  let r := {| api.Host := "t.io"; api.URLParams := [];
              api.Decode := ({| api.URL := ""; api.ExpiresIn := 0 |}, Some "EOF") |} in
  api.ListRedirects r h =
    ({| http.StatusCode := 200; http.Location := None;
        http.Body :=
          http.JSON
            (json.Object
               [("urls",
                 json.Array
                   [json.Object [("key", json.String "a");
                                 ("url", json.String "http://a.b");
                                 ("redirect_count", json.Number 2)]])]) |},
     {| api.h_store := c; api.h_logger := []; api.Reader := [];
        api.calls := [api.CallList] |}).
Proof.
  intros good c h r.
  apply (ListRedirects_with_records r h
           (Some [{| store.Key := "a"; store.URL := "http://a.b";
                     store.RedirectCount := 2 |}]) c
           {| store.Key := "a"; store.URL := "http://a.b"; store.RedirectCount := 2 |} []).
  - vm_compute. reflexivity.
  - reflexivity.
Defined.

Section handlers_errors.

Import api.

Context {S : Type} {store_S : store.Store S}.

Variable ParseRequestURI : string -> url.URL * option error.

(** A store that fails, in [ListRedirects] and in [DeleteRedirect]: 500
    with the generic body; the error goes to the log and not to the client. *)
Theorem store_error_is_500 (r : Request) (h : UserHandler S) (el ed : error)
        (data : slice store.UrlObject) (sl sd : S) :
  store.List (h_store h) = ((data, Some el), sl) ->
  store.Delete (URLParam r "key") (h_store h) = (Some ed, sd) ->
  ListRedirects r h =
    (http.Error "Internal Server Error" 500,
     {| h_store := sl; h_logger := h_logger h ++ [("Handling error", el)];
        Reader := Reader h; calls := calls h ++ [CallList] |}) /\
  DeleteRedirect r h =
    (http.Error "Internal Server Error" 500,
     {| h_store := sd; h_logger := h_logger h ++ [("Handling error", ed)];
        Reader := Reader h;
        calls := calls h ++ [CallDelete (URLParam r "key")] |}).
Proof.
  intros Hlist Hdel. split.
  - unfold ListRedirects, bind, on_store. rewrite Hlist. reflexivity.
  - unfold DeleteRedirect, bind, on_store. rewrite Hdel. reflexivity.
Qed.

(** X18: A [Put] that fails in [CreateRedirect]: 500 with the generic body, the
    error in the log; the key was generated, so the random source has been
    read. *)
Theorem CreateRedirect_put_failure (r : Request) (h : UserHandler S)
        (data : CreateShortURLRequest) (key : string) (kerr : option error)
        (rd' : list byte) (e : error) (s' : S) :
  render_Bind ParseRequestURI r = (data, None) ->
  generateKey (Reader h) = Returns ((key, kerr), rd') ->
  store.Put key (URL data) (h_store h) = (Some e, s') ->
  CreateRedirect ParseRequestURI r h =
    (http.Error "Internal Server Error" 500,
     {| h_store := s'; h_logger := h_logger h ++ [("Handling error", e)];
        Reader := rd'; calls := calls h ++ [CallPut key (URL data)] |}).
Proof.
  intros Hbind Hgen Hput. unfold CreateRedirect. rewrite Hbind.
  unfold bind, call_generateKey. rewrite Hgen. unfold on_store. cbn [h_store].
  rewrite Hput. reflexivity.
Qed.

(** X19: What [CreateRedirect] can ask of the store: nothing, or one [Put] of the
    url of the request, and then the body decoded, the url passed [Bind],
    and the key is a well-formed key or, the generator having failed, the
    empty string. *)
Theorem CreateRedirect_store_calls (r : Request) (h : UserHandler S) :
  let h' := snd (CreateRedirect ParseRequestURI r h) in
  calls h' = calls h \/
  exists key,
    calls h' = calls h ++ [CallPut key (URL (fst (Decode r)))] /\
    snd (Decode r) = None /\
    Bind ParseRequestURI (fst (Decode r)) = None /\
    (key = "" \/ keyPattern_MatchString key = true).
Proof.
  cbn zeta. unfold CreateRedirect, render_Bind.
  destruct (Decode r) as [data [e|]]; cbn [fst snd]; [left; reflexivity|].
  destruct (Bind ParseRequestURI data) as [e|] eqn:Hbind; [left; reflexivity|].
  unfold bind, call_generateKey.
  destruct (generateKey_spec (Reader h)) as (key & kerr & rd' & Hgen & Hkey).
  rewrite Hgen. right. exists key. unfold on_store. cbn [h_store].
  destruct (store.Put key (URL data) (h_store h)) as [[e|] s'];
    (split; [reflexivity|]); repeat split;
    (destruct kerr; [left; exact Hkey | right; destruct Hkey; apply keyPattern_of_alphabet; assumption]).
Qed.

End handlers_errors.

Section handlers_errors_instances.

Import dynamodb db api.

Lemma store_error_is_500_witness :
  let c := {| DebugMode := false;
              DDB := {| items := ∅; outcomes := [Some "down"] |};
              now := 0; stdout := [] |} in
  let c' := {| DebugMode := false; DDB := {| items := ∅; outcomes := [] |};
               now := 0; stdout := [] |} in
  let h := {| h_store := c; h_logger := []; Reader := []; calls := [] |} in
  let r := {| Host := "t.io"; URLParams := [("key", "k")];
              Decode := ({| URL := ""; ExpiresIn := 0 |}, Some "EOF") |} in
  ListRedirects r h =
    (http.Error "Internal Server Error" 500,
     {| h_store := c'; h_logger := [] ++ [("Handling error", "failed to scan table: down")];
        Reader := []; calls := [] ++ [CallList] |}) /\
  DeleteRedirect r h =
    (http.Error "Internal Server Error" 500,
     {| h_store := c'; h_logger := [] ++ [("Handling error", "failed to delete item: down")];
        Reader := []; calls := [] ++ [CallDelete "k"] |}).
Proof.
  intros c c' h r.
  apply (store_error_is_500 r h "failed to scan table: down"
           "failed to delete item: down" None c' c').
  - reflexivity.
  - reflexivity.
Defined.

End handlers_errors_instances.

(** ** More on the request handlers over the DynamoDB client *)

Section handlers_on_client_more.

Import dynamodb db api.

Variable ParseRequestURI : string -> url.URL * option error.

Lemma all_ok_after (c : Client) (m : gmap string Item) :
  all_ok c ->
  all_ok {| DebugMode := DebugMode c; DDB := {| items := m; outcomes := [] |};
            now := now c; stdout := stdout c |}.
Proof. intros _. reflexivity. Qed.





(** X23: Delete then redirect: once [DeleteRedirect] has gone through, [Redirect]
    on the same well-formed key answers 404. *)
Theorem DeleteRedirect_then_Redirect (r : Request) (h : UserHandler Client) :
  all_ok (h_store h) ->
  keyPattern_MatchString (URLParam r "key") = true ->
  http.StatusCode (fst (DeleteRedirect r h)) = 200 /\
  fst (Redirect r (snd (DeleteRedirect r h))) = http.NotFound.
Proof.
  intros Hall Hkey. unfold DeleteRedirect at 1 2. unfold bind, on_store.
  change (store.Delete (URLParam r "key") (h_store h))
    with (Delete (URLParam r "key") (h_store h)).
  rewrite (Delete_ok _ _ (all_ok_next _ Hall)). cbn [fst snd]. split; [reflexivity|].
  unfold Redirect. rewrite Hkey. cbn [negb]. unfold bind, on_store. cbn [h_store].
  match goal with
  | |- context [store.Get ?k ?c] => change (store.Get k c) with (Get k c);
                                    rewrite (Get_not_found c k)
  end.
  - reflexivity.
  - unfold next_ok. cbn [DDB outcomes]. unfold all_ok in Hall. rewrite Hall. reflexivity.
  - cbn [DDB items]. apply lookup_delete_eq.
Qed.

Lemma DeleteRedirect_then_Redirect_witness :
  let raw : Item := {[ "id" := AttributeValueMemberS "abcdefghABCDEFGH";
                       "redirect_url" := AttributeValueMemberS "http://a.b" ]} in
  let h := {| h_store := {| DebugMode := false;
                            DDB := {| items := {[ "abcdefghABCDEFGH" := raw ]};
                                      outcomes := [] |};
                            now := 0; stdout := [] |};
              h_logger := []; Reader := []; calls := [] |} in
  let r := {| Host := "t.io"; URLParams := [("key", "abcdefghABCDEFGH")];
              Decode := ({| URL := ""; ExpiresIn := 0 |}, Some "EOF") |} in
  http.StatusCode (fst (DeleteRedirect r h)) = 200 /\
  fst (Redirect r (snd (DeleteRedirect r h))) = http.NotFound.
Proof.
  intros raw h r. apply (DeleteRedirect_then_Redirect r h); reflexivity.
Defined.

End handlers_on_client_more.

Section handlers_compose.

Import dynamodb db api.

Variable ParseRequestURI : string -> url.URL * option error.



End handlers_compose.

Section handlers_compose_instances.

Import dynamodb db api.



Lemma CreateRedirect_put_failure_witness :
  let parse := fun s : string =>
    ({| url.Scheme := "https"; url.Host := "example.com" |}, @None error) in
  let data := {| URL := "https://example.com/page"; ExpiresIn := 0 |} in
  let r := {| Host := "t.io"; URLParams := []; Decode := (data, None) |} in
  let c := fun os => {| DebugMode := false; DDB := {| items := ∅; outcomes := os |};
                        now := 0; stdout := [] |} in
  let h := {| h_store := c [Some "throttled"]; h_logger := [];
              Reader := replicate 16 x00; calls := [] |} in
  CreateRedirect parse r h =
    (http.Error "Internal Server Error" 500,
     {| h_store := c [];
        h_logger := [] ++ [("Handling error", "failed to put item: throttled")];
        Reader := [];
        calls := [] ++ [CallPut "aaaaaaaaaaaaaaaa" "https://example.com/page"] |}).
Proof.
  intros parse data r c h.
  apply (CreateRedirect_put_failure parse r h data "aaaaaaaaaaaaaaaa" None []
           "failed to put item: throttled" (c [])).
  - reflexivity.
  - reflexivity.
  - reflexivity.
Defined.

Lemma CreateRedirect_invalid_body_witness :
  let parse := fun s : string =>
    ({| url.Scheme := "ftp"; url.Host := "x.com" |}, @None error) in
  let r := {| Host := "t.io"; URLParams := [];
              Decode := ({| URL := "ftp://x.com"; ExpiresIn := 0 |}, None) |} in
  let h := {| h_store := {| DebugMode := false;
                            DDB := {| items := ∅; outcomes := [] |};
                            now := 0; stdout := [] |};
              h_logger := []; Reader := replicate 16 x00; calls := [] |} in
  CreateRedirect parse r h =
    (http.Error "Internal Server Error" 500,
     {| h_store := h_store h;
        h_logger := [] ++ [("Handling error", "url must use http or https scheme")];
        Reader := replicate 16 x00; calls := [] |}).
Proof.
  intros parse r h.
  apply (CreateRedirect_invalid_body parse r h "url must use http or https scheme").
  reflexivity.
Defined.

Lemma Redirect_unknown_key_witness :
  let h := {| h_store := {| DebugMode := false;
                            DDB := {| items := ∅; outcomes := [] |};
                            now := 0; stdout := [] |};
              h_logger := []; Reader := []; calls := [] |} in
  let r := {| Host := "t.io"; URLParams := [("key", "abcdefghABCDEFGH")];
              Decode := ({| URL := ""; ExpiresIn := 0 |}, Some "EOF") |} in
  fst (Redirect r h) = http.NotFound.
Proof.
  intros h r. apply (Redirect_unknown_key r h); reflexivity.
Defined.

Lemma Redirect_storage_error_witness :
  let h := {| h_store := {| DebugMode := false;
                            DDB := {| items := ∅; outcomes := [Some "down"] |};
                            now := 0; stdout := [] |};
              h_logger := []; Reader := []; calls := [] |} in
  let r := {| Host := "t.io"; URLParams := [("key", "abcdefghABCDEFGH")];
              Decode := ({| URL := ""; ExpiresIn := 0 |}, Some "EOF") |} in
  fst (Redirect r h) = http.Error "Internal Server Error" 500.
Proof.
  intros h r. apply (Redirect_storage_error r h "down" []); reflexivity.
Defined.

End handlers_compose_instances.

(** ** More on the key generator: the key as a function of the bytes read *)

Section key_bytes.

Import api.

Lemma Int_62_unfold (rd : list byte) :
  rand.Int (Z.of_nat (String.length alphanumeric)) rd =
  Returns (rand.Int_loop (S (length rd)) 62 1%nat 6 rd).
Proof. reflexivity. Qed.

Lemma low6_range (b : byte) : 0 <= low6 b < 64.
Proof.
  unfold low6. change 63 with (Z.ones 6). rewrite Z.land_ones by lia.
  apply Z.mod_pos_bound. lia.
Qed.

Lemma Int_loop_62_cons (fuel : nat) (b : byte) (rd : list byte) :
  rand.Int_loop (S fuel) 62 1%nat 6 (b :: rd) =
  if low6 b <? 62 then ((Some (low6 b), None), rd)
  else rand.Int_loop fuel 62 1%nat 6 rd.
Proof. reflexivity. Qed.

Lemma Int_62_cons (b : byte) (rd : list byte) :
  rand.Int (Z.of_nat (String.length alphanumeric)) (b :: rd) =
  if accepted b then Returns ((Some (low6 b), None), rd)
  else rand.Int (Z.of_nat (String.length alphanumeric)) rd.
Proof.
  rewrite !Int_62_unfold. cbn [length]. rewrite Int_loop_62_cons.
  unfold accepted. destruct (low6 b <? 62); reflexivity.
Qed.

Lemma Int_62_nil :
  rand.Int (Z.of_nat (String.length alphanumeric)) [] = Returns ((None, Some "EOF"), []).
Proof. reflexivity. Qed.

(** [rand.Int] for the alphabet skips the bytes it does not accept and
    hands out the low six bits of the first byte it accepts. *)
Lemma Int_62_accepted (rd : list byte) :
  exists rd',
    rand.Int (Z.of_nat (String.length alphanumeric)) rd =
      Returns (match List.filter accepted rd with
               | [] => (None, Some "EOF")
               | a :: _ => (Some (low6 a), None)
               end, rd') /\
    List.filter accepted rd' = tail (List.filter accepted rd).
Proof.
  induction rd as [|b rd IH].
  - exists []. split; reflexivity.
  - rewrite Int_62_cons. cbn [List.filter]. destruct (accepted b).
    + exists rd. split; reflexivity.
    + exact IH.
Qed.

Lemma index_alphanumeric_letter (b : byte) :
  accepted b = true -> index_alphanumeric (Some (low6 b)) = Returns (letter b).
Proof.
  unfold accepted. intros Hacc. apply Z.ltb_lt in Hacc.
  pose proof (low6_range b) as [Hlo _].
  unfold index_alphanumeric, letter.
  destruct (Z.ltb_spec (low6 b) 0) as [?|_]; [lia|].
  destruct (get_lt alphanumeric (Z.to_nat (low6 b))) as [c Hc];
    [change (String.length alphanumeric) with 62%nat; lia|].
  rewrite Hc. reflexivity.
Qed.

Lemma generateKey_loop_accepted (n : nat) :
  forall (done : list ascii) (rd : list byte),
  exists rd',
    generateKey_loop (seq (length done) n) (done ++ replicate n zero) rd =
      Returns (if (n <=? length (List.filter accepted rd))%nat
               then (string_of_list_ascii
                       (done ++ (letter <$> take n (List.filter accepted rd))), None)
               else ("", Some "EOF"), rd').
Proof.
  induction n as [|n IH]; intros done rd.
  - exists rd. cbn. rewrite !app_nil_r. reflexivity.
  - cbn [seq generateKey_loop].
    destruct (Int_62_accepted rd) as (rd1 & Hint & Hrest). rewrite Hint.
    destruct (List.filter accepted rd) as [|a acc] eqn:Hacc.
    + exists rd1. reflexivity.
    + assert (Ha : accepted a = true).
      { assert (Hin : In a (List.filter accepted rd)) by (rewrite Hacc; left; reflexivity).
        apply filter_In in Hin. apply Hin. }
      rewrite (index_alphanumeric_letter a Ha).
      cbn [replicate].
      replace (<[length done := letter a]> (done ++ zero :: replicate n zero))
        with ((done ++ [letter a]) ++ replicate n zero).
      2: { rewrite insert_app_r_alt by lia. rewrite Nat.sub_diag. cbn.
           rewrite <- app_assoc. reflexivity. }
      destruct (IH (done ++ [letter a]) rd1) as (rd2 & Hloop).
      rewrite length_app in Hloop. cbn [length] in Hloop.
      rewrite Nat.add_1_r in Hloop. rewrite Hloop, Hrest. cbn [tail length].
      exists rd2. change (S n <=? S (length acc))%nat with (n <=? length acc)%nat.
      destruct (n <=? length acc)%nat; [|reflexivity].
      cbn [take fmap list_fmap]. rewrite <- app_assoc. reflexivity.
Qed.

(** X26: The key as a function of the random bytes: the generator looks at the
    low six bits of every byte, drops the bytes where they are 62 or 63, and
    writes for each of the first 16 bytes left the character of the
    alphabet at that index.  It fails exactly when fewer than 16 such bytes
    come before the source ends. *)
Theorem generateKey_accepted_bytes (rd : list byte) :
  exists rd',
    generateKey rd =
      Returns (if (16 <=? length (List.filter accepted rd))%nat
               then (string_of_list_ascii
                       (letter <$> take 16 (List.filter accepted rd)), None)
               else ("", Some "EOF"), rd').
Proof.
  exact (generateKey_loop_accepted 16 [] rd).
Qed.

End key_bytes.

Section key_bias.

Import api.

Lemma all_bytes_complete (b : byte) : In b all_bytes.
Proof.
  assert (Hb : existsb (Byte.eqb b) all_bytes = true)
    by (destruct b; vm_compute; reflexivity).
  apply existsb_exists in Hb as (x & Hin & Heq).
  apply Byte.byte_dec_bl in Heq. subst x. exact Hin.
Qed.

(** X27: The generator has no bias: of the 256 values of a byte, exactly 4 are
    accepted and give any one character of the alphabet, and 8 are dropped. *)
Theorem generateKey_no_bias (c : ascii) :
  In c (list_ascii_of_string alphanumeric) ->
  length (List.filter (fun b => accepted b && Ascii.eqb (letter b) c) all_bytes) = 4%nat /\
  length (List.filter (fun b => negb (accepted b)) all_bytes) = 8%nat /\
  length all_bytes = 256%nat /\
  (forall b, In b all_bytes).
Proof.
  intros Hin.
  assert (Hall : forallb
                   (fun c => (length (List.filter
                                        (fun b => accepted b && Ascii.eqb (letter b) c)
                                        all_bytes) =? 4)%nat)
                   (list_ascii_of_string alphanumeric) = true)
    by (vm_compute; reflexivity).
  rewrite forallb_forall in Hall. specialize (Hall c Hin). apply Nat.eqb_eq in Hall.
  split; [exact Hall|]. split; [vm_compute; reflexivity|].
  split; [vm_compute; reflexivity | exact all_bytes_complete].
Qed.

Lemma generateKey_no_bias_witness :
  length (List.filter (fun b => accepted b && Ascii.eqb (letter b) "a"%char) all_bytes)
    = 4%nat /\
  length (List.filter (fun b => negb (accepted b)) all_bytes) = 8%nat /\
  length all_bytes = 256%nat /\
  (forall b, In b all_bytes).
Proof.
  exact (generateKey_no_bias "a"%char (or_introl eq_refl)).
Defined.

End key_bias.

(** ** Connecting to the table *)

Section setup_properties.

Import setup.

Lemma SetupDB_tables (c : Client) :
  (fst (SetupDB c) = None /\
   (tables (DDB (snd (SetupDB c))) = tables (DDB c) /\
    is_Some (tables (DDB c) !! Table c) \/
    tables (DDB (snd (SetupDB c))) = <[Table c := ∅]> (tables (DDB c)) /\
    tables (DDB c) !! Table c = None)) \/
  (fst (SetupDB c) <> None /\ tables (DDB (snd (SetupDB c))) = tables (DDB c)).
Proof.
  destruct c as [debug table endpoint [tbls rs] lg info].
  unfold SetupDB, bind, gets, call, DescribeTable, CreateTable, bind, next_reply, gets,
    when_debug, bind, gets, Logger_Info, Printf, modify, ret.
  cbn [DebugMode Table DDBEndpoint DDB log Logger tables replies].
  destruct (negb (String.eqb endpoint "")), debug;
    cbn [DebugMode Table DDBEndpoint DDB log Logger];
    destruct rs as [|[e|] rs]; cbn [tables replies];
    destruct (tbls !! table) as [t|] eqn:Ht; cbn [tables replies];
    try (destruct rs as [|[e'|] rs]);
    cbn [DebugMode Table DDBEndpoint DDB log Logger tables replies fst snd];
    rewrite ?Ht; cbn [DebugMode Table DDBEndpoint DDB log Logger tables replies fst snd];
    solve [ left; split; [reflexivity|]; left; split; [reflexivity | eauto]
          | left; split; [reflexivity|]; right; split; reflexivity
          | right; split; [discriminate | reflexivity] ].
Qed.

(** X28: When [SetupDB] returns no error the table exists, and whatever it
    returns, every table of the account still has the items it had. *)
Theorem SetupDB_ok_means_table (c : Client) :
  tables (DDB c) ⊆ tables (DDB (snd (SetupDB c))) /\
  match fst (SetupDB c) with
  | None => is_Some (tables (DDB (snd (SetupDB c))) !! Table c)
  | Some _ => tables (DDB (snd (SetupDB c))) = tables (DDB c)
  end.
Proof.
  destruct (SetupDB_tables c) as [[Hnil [[Heq Hsome]|[Heq Hnone]]]|[Herr Heq]].
  - rewrite Hnil, Heq. split; [reflexivity | exact Hsome].
  - rewrite Hnil, Heq. split; [apply insert_subseteq; exact Hnone|].
    rewrite lookup_insert_eq. eauto.
  - rewrite Heq. split; [reflexivity|].
    destruct (fst (SetupDB c)); [reflexivity | contradiction].
Qed.

(** A table that exists and a probe that goes through: no error after the
    one [DescribeTable] call, nothing created; debug mode logs the
    connection. *)
Theorem SetupDB_existing_table (c : Client) (t : gmap string dynamodb.Item) :
  DDBEndpoint c = "" ->
  match replies (DDB c) with Some _ :: _ => False | _ => True end ->
  tables (DDB c) !! Table c = Some t ->
  SetupDB c =
    (None,
     {| DebugMode := DebugMode c; Table := Table c; DDBEndpoint := DDBEndpoint c;
        DDB := {| tables := tables (DDB c); replies := tail (replies (DDB c)) |};
        log := log c ++ (if DebugMode c
                         then ["Connected to DynamoDB table: " +:+ Table c]
                         else []);
        Logger := Logger c |}).
Proof.
  destruct c as [debug table endpoint [tbls rs] lg info].
  cbn [DebugMode Table DDBEndpoint DDB log Logger tables replies].
  intros -> Hok Ht.
  unfold SetupDB, bind, gets, call, DescribeTable, bind, next_reply, gets,
    when_debug, bind, gets, Printf, modify, ret.
  cbn [DebugMode Table DDBEndpoint DDB log Logger tables replies negb String.eqb].
  destruct rs as [|[e|] rs]; [| contradiction |];
    cbn [tables replies tail]; rewrite Ht; destruct debug; cbn;
    rewrite ?app_nil_r; reflexivity.
Qed.

Lemma SetupDB_existing_table_witness :
  let c := {| DebugMode := true; Table := "terse"; DDBEndpoint := "";
              DDB := {| tables := {[ "terse" := ∅ ]}; replies := [] |};
              log := []; Logger := [] |} in
  SetupDB c =
    (None,
     {| DebugMode := true; Table := "terse"; DDBEndpoint := "";
        DDB := {| tables := {[ "terse" := ∅ ]}; replies := tail [] |};
        log := [] ++ ["Connected to DynamoDB table: " +:+ "terse"];
        Logger := [] |}).
Proof.
  intros c. apply (SetupDB_existing_table c ∅).
  - reflexivity.
  - exact I.
  - reflexivity.
Defined.

(** X29: Any failure of the probe is taken for a missing table.  So when the
    table exists but [DescribeTable] fails, [SetupDB] goes on to create it
    and, that call reaching the service, returns the creation error: the
    cause of the failed probe is lost and the table is left as it was. *)
Theorem SetupDB_probe_failure (c : Client) (t : gmap string dynamodb.Item)
        (e : error) (os : list (option error)) :
  replies (DDB c) = Some e :: os ->
  match os with Some _ :: _ => False | _ => True end ->
  tables (DDB c) !! Table c = Some t ->
  fst (SetupDB c) =
    Some ("failed to create table: " +:+ "ResourceInUseException: Table already exists") /\
  tables (DDB (snd (SetupDB c))) = tables (DDB c).
Proof.
  destruct c as [debug table endpoint [tbls rs] lg info].
  cbn [DebugMode Table DDBEndpoint DDB log Logger tables replies].
  intros -> Hok Ht.
  unfold SetupDB, bind, gets, call, DescribeTable, CreateTable, bind, next_reply, gets,
    when_debug, bind, gets, Logger_Info, Printf, modify, ret.
  cbn [DebugMode Table DDBEndpoint DDB log Logger tables replies].
  destruct (negb (String.eqb endpoint "")); cbn [DebugMode Table DDBEndpoint DDB log Logger];
    destruct debug; cbn [DebugMode Table DDBEndpoint DDB log Logger tables replies];
    (destruct os as [|[e'|] os]; [| contradiction |]);
    cbn [tables replies]; rewrite Ht; split; reflexivity.
Qed.

Lemma SetupDB_probe_failure_witness :
  let c := {| DebugMode := false; Table := "terse"; DDBEndpoint := "";
              DDB := {| tables := {[ "terse" := ∅ ]};
                        replies := [Some "RequestCanceled: context deadline exceeded"] |};
              log := []; Logger := [] |} in
  fst (SetupDB c) =
    Some ("failed to create table: " +:+ "ResourceInUseException: Table already exists") /\
  tables (DDB (snd (SetupDB c))) = tables (DDB c).
Proof.
  intros c.
  apply (SetupDB_probe_failure c ∅ "RequestCanceled: context deadline exceeded" []).
  - reflexivity.
  - exact I.
  - reflexivity.
Defined.

(** X30: A missing table, both calls going through: [SetupDB] creates it empty
    and returns no error. *)
Theorem SetupDB_creates_missing_table (c : Client) :
  replies (DDB c) = [] ->
  tables (DDB c) !! Table c = None ->
  fst (SetupDB c) = None /\
  tables (DDB (snd (SetupDB c))) = <[Table c := ∅]> (tables (DDB c)).
Proof.
  destruct c as [debug table endpoint [tbls rs] lg info].
  cbn [DebugMode Table DDBEndpoint DDB log Logger tables replies].
  intros -> Ht.
  unfold SetupDB, bind, gets, call, DescribeTable, CreateTable, bind, next_reply, gets,
    when_debug, bind, gets, Logger_Info, Printf, modify, ret.
  cbn [DebugMode Table DDBEndpoint DDB log Logger tables replies].
  destruct (negb (String.eqb endpoint "")); cbn [DebugMode Table DDBEndpoint DDB log Logger];
    cbn [tables replies]; rewrite Ht; destruct debug;
    cbn [DebugMode Table DDBEndpoint DDB log Logger tables replies]; rewrite Ht;
    split; reflexivity.
Qed.

Lemma SetupDB_creates_missing_table_witness :
  let c := {| DebugMode := true; Table := "terse"; DDBEndpoint := "http://localhost:8000";
              DDB := {| tables := ∅; replies := [] |}; log := []; Logger := [] |} in
  fst (SetupDB c) = None /\
  tables (DDB (snd (SetupDB c))) = <["terse" := ∅]> (tables (DDB c)).
Proof.
  intros c. apply (SetupDB_creates_missing_table c); reflexivity.
Defined.

End setup_properties.

(** ** What a client can be sent *)

Section responses.

Import api.

Context {S : Type} {store_S : store.Store S}.

Variable ParseRequestURI : string -> url.URL * option error.

(** X17: The answers of the four handlers.  Whatever the store, the request and
    the random source do, a failure is answered with one of three fixed
    bodies (bad key, not found, generic server error): no text of a store
    error or of a validation error reaches the client.  [CreateRedirect]
    never takes the panic path, [ListRedirects] and [DeleteRedirect] answer
    200 or the generic 500, [Redirect] 302 with a [Location] or one of the
    fixed failures. *)
Theorem handlers_fixed_failures (r : Request) (h : UserHandler S) :
  let generic := http.Error "Internal Server Error" 500 in
  (fst (Redirect r h) = http.Error "Invalid key format" 400 \/
   fst (Redirect r h) = generic \/
   fst (Redirect r h) = http.NotFound \/
   exists target, target <> "" /\ fst (Redirect r h) = http.Redirect target 302) /\
  (fst (CreateRedirect ParseRequestURI r h) = generic \/
   exists key,
     fst (CreateRedirect ParseRequestURI r h) =
       {| http.StatusCode := 201; http.Location := None;
          http.Body := http.JSON
                         (json.Object
                            [("short_url", json.String (Host r +:+ "/g/" +:+ key))]) |}) /\
  (fst (ListRedirects r h) = generic \/
   exists v, fst (ListRedirects r h) =
               {| http.StatusCode := 200; http.Location := None;
                  http.Body := http.JSON (json.Object [("urls", v)]) |}) /\
  (fst (DeleteRedirect r h) = generic \/
   fst (DeleteRedirect r h) =
     {| http.StatusCode := 200; http.Location := None;
        http.Body := http.JSON
                       (json.Object
                          [("message", json.String "Redirect deleted successfully")]) |}).
Proof.
  cbn zeta. split; [|split; [|split]].
  - unfold Redirect. destruct (keyPattern_MatchString (URLParam r "key")); cbn [negb];
      [|left; reflexivity].
    unfold bind, on_store.
    destruct (store.Get (URLParam r "key") (h_store h)) as [[value [e|]] s'];
      [right; left; reflexivity|].
    destruct (String.eqb_spec (store.URL value) "") as [Hempty|Hne];
      [right; right; left; reflexivity|].
    right. right. right. exists (store.URL value). split; [exact Hne | reflexivity].
  - unfold CreateRedirect.
    destruct (render_Bind ParseRequestURI r) as [data [e|]]; [left; reflexivity|].
    unfold bind, call_generateKey.
    destruct (generateKey_spec (Reader h)) as (key & kerr & rd' & Hgen & _).
    rewrite Hgen. unfold on_store. cbn [h_store].
    destruct (store.Put key (URL data) (h_store h)) as [[e|] s']; [left; reflexivity|].
    right. exists key. unfold respondJSON, marshal_CreateShortURLResponse, ret.
    cbn [ShortURL fst]. rewrite append_slash_g_nonempty. reflexivity.
  - unfold ListRedirects, bind, on_store.
    destruct (store.List (h_store h)) as [[data [e|]] s']; [left; reflexivity|].
    right. eexists. reflexivity.
  - unfold DeleteRedirect, bind, on_store.
    destruct (store.Delete (URLParam r "key") (h_store h)) as [[e|] s'];
      [left | right]; reflexivity.
Qed.

End responses.
